(** * Traffic signal optimizer (Webster's method): model and properties

    Shallow embedding of [traffic_optimizer.py], class
    [TrafficSignalOptimizer], followed by the counting of
    [vehicle_counter.py] and the data flow of the application script.

    The optimizer is embedded twice.

    The first embedding is the one most statements are about:
    - a Python [dict] with string keys is a [gmap string _];
    - a Python [int] is a [Z];
    - a Python [float] is an exact rational [Q]: rounding error, overflow,
      infinities and NaN of IEEE doubles are outside it, and equality of
      real-valued results is [Qeq] ([==]);
    - a Python exception is the left injection of the [py] monad.  The
      operations of the source that can raise on their operands (true
      division, subscripting a dict) are checked.

    The second embedding, module [F64], is the one for statements on what
    the call raises and on the state of the object:
    - a [float] is a binary64 number, with its rounding, its infinities
      and NaN, and the [OverflowError] and [ValueError] of the conversions
      between [int] and [float];
    - a method body runs in a monad of state and exceptions over the
      attributes of [self];
    - a [dict] is the list of its items in insertion order. *)

From Stdlib Require Import ZArith QArith Qround Lia Lqa SpecFloat.
From stdpp Require Import gmap strings fin_maps.

Local Open Scope Z_scope.

(** ** Python runtime fragment *)

Module Py.

Inductive exn : Type :=
  | ZeroDivisionError
  | KeyError (key : string).

Definition py : Type -> Type := sum exn.

Definition raise {A : Type} (e : exn) : py A := inl e.

#[global] Instance py_ret : MRet py := fun A a => inr a.
#[global] Instance py_bind : MBind py :=
  fun A B k m => match m with inl e => inl e | inr a => k a end.

(** [a / b] on numbers: raises on a zero divisor. *)
Definition truediv (a b : Q) : py Q :=
  if Qeq_bool b 0 then raise ZeroDivisionError else mret (a / b)%Q.

(** [d[k]]: raises [KeyError] when the key is absent. *)
Definition getitem {A : Type} (d : gmap string A) (k : string) : py A :=
  match d !! k with
  | Some v => mret v
  | None => raise (KeyError k)
  end.

(** [d.get(k, dflt)]. *)
Definition get {A : Type} (d : gmap string A) (k : string) (dflt : A) : A :=
  default dflt (d !! k).

(** [min(a, b)]: the second argument is taken only when strictly smaller. *)
Definition min (a b : Q) : Q :=
  if Qlt_le_dec b a then b else a.

(** [int(x)] on a real: truncation toward zero. *)
Definition int (x : Q) : Z := Z.quot (Qnum x) (Zpos (Qden x)).

(** [round(x)]: nearest integer, ties to the even neighbour. *)
Definition round (x : Q) : Z :=
  let f := Qfloor x in
  match (x - inject_Z f ?= 1 # 2)%Q with
  | Lt => f
  | Gt => f + 1
  | Eq => if Z.even f then f else f + 1
  end.

(** [round(x, ndigits)]. *)
Definition round_ndigits (x : Q) (ndigits : nat) : Q :=
  let scale := inject_Z (10 ^ Z.of_nat ndigits) in
  (inject_Z (round (x * scale)) / scale)%Q.

End Py.

(** ** Data model *)

(** The attributes set by [__init__]. *)
Record TrafficSignalOptimizer : Type := {
  weights : gmap string Q;
  saturation_flow : Q;
  lost_time_per_phase : Z;
  min_green_time : Z;
  min_cycle_time : Z;
  max_cycle_time : Z
}.

(** [TrafficSignalOptimizer()]: the constructor takes no argument. *)
Definition init : TrafficSignalOptimizer := {|
  weights :=
    <["car" := 1.0%Q]> (<["motorcycle" := 0.5%Q]>
      (<["bus" := 3.0%Q]> (<["truck" := 2.5%Q]> ∅)));
  saturation_flow := 30.0%Q;
  lost_time_per_phase := 4;
  min_green_time := 10;
  min_cycle_time := 60;
  max_cycle_time := 150
|}.

(** An entry of [lane_data]. *)
Record LaneData : Type := { pcu : Q; y : Q }.

(** An entry of [results['lanes']]. *)
Record LaneTiming : Type := {
  green_time : Z;
  red_time : Z;
  yellow_time : Z;
  density_score : Q;
  flow_ratio : Q
}.

(** The dict returned by [optimize_signals]. *)
Record Results : Type := {
  cycle_time : Z;
  lanes : gmap string LaneTiming;
  saturation_degree : Q;
  actual_cycle_time : Z
}.

(** ** [calculate_traffic_density] *)

Definition calculate_traffic_density
    (self : TrafficSignalOptimizer) (counts : gmap string Z) : Q :=
  map_fold
    (fun vehicle_type count density =>
       let weight := Py.get (weights self) vehicle_type 1.0%Q in
       (density + inject_Z count * weight)%Q)
    0%Q counts.

(** ** [optimize_signals] *)

(** [L = self.lost_time_per_phase * 4]. *)
Definition total_lost_time (self : TrafficSignalOptimizer) : Z :=
  lost_time_per_phase self * 4.

(** First loop: flow ratio of each lane and their sum [Y]. *)
Definition flow_ratio_loop
    (self : TrafficSignalOptimizer) (lane_counts : gmap string (gmap string Z))
    : Py.py (gmap string LaneData * Q) :=
  map_fold
    (fun lane counts acc =>
       '(lane_data, Y) ← acc;
       let pcu_count := calculate_traffic_density self counts in
       y ← Py.truediv pcu_count (saturation_flow self);
       mret (<[lane := {| pcu := pcu_count; y := y |}]> lane_data, (Y + y)%Q))
    (mret (∅, 0%Q)) lane_counts.

(** Second loop: green, red and yellow time of each lane, and the sum of
    the green times. *)
Definition green_loop
    (self : TrafficSignalOptimizer) (lane_data : gmap string LaneData)
    (Y : Q) (cycle_time total_effective_green : Z)
    (lane_counts : gmap string (gmap string Z))
    : Py.py (gmap string LaneTiming * Z) :=
  map_fold
    (fun lane (_ : gmap string Z) acc =>
       '(lanes, allocated_green_sum) ← acc;
       d ← Py.getitem lane_data lane;
       let y := y d in
       raw_green ←
         (if Qlt_le_dec 0 Y
          then q ← Py.truediv y Y; mret (q * inject_Z total_effective_green)%Q
          else mret (inject_Z total_effective_green / 4)%Q);
       let green_time := Z.max (min_green_time self) (Py.round raw_green) in
       let red_time := cycle_time - green_time - lost_time_per_phase self in
       d' ← Py.getitem lane_data lane;
       mret (<[lane := {| green_time := green_time;
                          red_time := red_time;
                          yellow_time := lost_time_per_phase self;
                          density_score := pcu d';
                          flow_ratio := Py.round_ndigits y 3 |}]> lanes,
             allocated_green_sum + green_time))
    (mret (∅, 0)) lane_counts.

Definition optimize_signals
    (self : TrafficSignalOptimizer) (lane_counts : gmap string (gmap string Z))
    : Py.py Results :=
  '(lane_data, Y) ← flow_ratio_loop self lane_counts;
  let L := total_lost_time self in
  let Y_clamped := Py.min Y 0.95%Q in
  optimal_cycle ←
    (if Qlt_le_dec 0 Y_clamped
     then Py.truediv (1.5 * inject_Z L + 5)%Q (1 - Y_clamped)%Q
     else mret (inject_Z (min_cycle_time self)));
  let cycle_time :=
    Z.max (min_cycle_time self)
          (Z.min (max_cycle_time self) (Py.int optimal_cycle)) in
  let total_effective_green := cycle_time - L in
  '(lanes, allocated_green_sum) ←
    green_loop self lane_data Y cycle_time total_effective_green lane_counts;
  mret {| cycle_time := cycle_time;
          lanes := lanes;
          saturation_degree := Y;
          actual_cycle_time := allocated_green_sum + L |}.

(** ** Derived quantities used in the statements *)

(** Sum of the green times of a lane table. *)
Definition green_sum (ls : gmap string LaneTiming) : Z :=
  map_fold (fun _ t acc => acc + green_time t) 0 ls.

(** ** Closed forms of the two loops

    These restate what the loops compute when no exception is raised; the
    lemmas below prove that the loops return exactly these values. *)

Definition lane_datum (self : TrafficSignalOptimizer) (counts : gmap string Z)
    : LaneData :=
  let pcu_count := calculate_traffic_density self counts in
  {| pcu := pcu_count; y := (pcu_count / saturation_flow self)%Q |}.

Definition saturation_sum
    (self : TrafficSignalOptimizer) (lane_counts : gmap string (gmap string Z))
    : Q :=
  map_fold (fun _ counts Y => (Y + y (lane_datum self counts))%Q) 0%Q lane_counts.

Definition raw_green_of (Y : Q) (total_effective_green : Z) (d : LaneData) : Q :=
  if Qlt_le_dec 0 Y
  then (y d / Y * inject_Z total_effective_green)%Q
  else (inject_Z total_effective_green / 4)%Q.

Definition lane_timing
    (self : TrafficSignalOptimizer) (Y : Q) (cycle_time total_effective_green : Z)
    (d : LaneData) : LaneTiming :=
  let green_time :=
    Z.max (min_green_time self)
          (Py.round (raw_green_of Y total_effective_green d)) in
  {| green_time := green_time;
     red_time := cycle_time - green_time - lost_time_per_phase self;
     yellow_time := lost_time_per_phase self;
     density_score := pcu d;
     flow_ratio := Py.round_ndigits (y d) 3 |}.

Definition nominal_cycle (self : TrafficSignalOptimizer) (Y : Q) : Z :=
  let Y_clamped := Py.min Y 0.95%Q in
  let optimal_cycle :=
    if Qlt_le_dec 0 Y_clamped
    then ((1.5 * inject_Z (total_lost_time self) + 5) / (1 - Y_clamped))%Q
    else inject_Z (min_cycle_time self) in
  Z.max (min_cycle_time self)
        (Z.min (max_cycle_time self) (Py.int optimal_cycle)).

Definition plan
    (self : TrafficSignalOptimizer) (lane_counts : gmap string (gmap string Z))
    : Results :=
  let Y := saturation_sum self lane_counts in
  let ct := nominal_cycle self Y in
  let L := total_lost_time self in
  let ls := (fun counts => lane_timing self Y ct (ct - L) (lane_datum self counts))
              <$> lane_counts in
  {| cycle_time := ct;
     lanes := ls;
     saturation_degree := Y;
     actual_cycle_time := green_sum ls + L |}.

(** ** Requests used as examples *)

(** The count table [{'car': n}]. *)
Definition cars (n : Z) : gmap string Z := {["car" := n]}.

(** A request for the lanes North, South, East and West. *)
Definition four_lanes (north south east west : gmap string Z)
    : gmap string (gmap string Z) :=
  <["North" := north]> (<["South" := south]>
    (<["East" := east]> (<["West" := west]> ∅))).

(** ** Predicates on requests *)

(** Every count of every lane is non-negative. *)
Definition valid_input (lane_counts : gmap string (gmap string Z)) : Prop :=
  map_Forall (fun _ counts => map_Forall (fun _ c => 0 <= c) counts) lane_counts.


(** Every count of every lane is zero (a lane without detections has an
    empty count table). *)
Definition all_zero (lane_counts : gmap string (gmap string Z)) : Prop :=
  map_Forall (fun _ counts => map_Forall (fun _ c => c = 0) counts) lane_counts.


(** ** Definitions written from the specification *)

(** The sum of a list of rationals. *)
Definition Qsum (l : list Q) : Q := foldr Qplus 0%Q l.

(** The density of the specification: the sum over the categories of the
    count times the weight of the category, 1.0 for a category without a
    configured weight. *)
Definition density_spec (self : TrafficSignalOptimizer) (counts : gmap string Z) : Q :=
  Qsum ((fun kc : string * Z =>
           (inject_Z kc.2 * default 1.0%Q (weights self !! kc.1))%Q)
          <$> map_to_list counts).

(** The count table with every count doubled. *)
Definition doubled (counts : gmap string Z) : gmap string Z :=
  (fun c => 2 * c) <$> counts.

(** The equal share of the specification: the effective green divided by
    the number of lanes submitted, under the minimum-green floor. *)
Definition equal_share_per_lane (r : Results) (number_of_lanes : nat) : Z :=
  Z.max (min_green_time init)
        (Py.round (inject_Z (cycle_time r - total_lost_time init)
                   / inject_Z (Z.of_nat number_of_lanes))%Q).

(** ** More requests used as examples *)

(** The request with 7, 7, 7 and 9 cars on its four lanes. *)
Definition lanes_7_7_7_9 : gmap string (gmap string Z) :=
  four_lanes (cars 7) (cars 7) (cars 7) (cars 9).

(** The request with a single lane and no detection. *)
Definition one_empty_lane : gmap string (gmap string Z) := {["North" := ∅]}.

(** The request with two lanes and no detection. *)
Definition two_empty_lanes : gmap string (gmap string Z) :=
  <["North" := ∅]> (<["South" := ∅]> ∅).

(** The request with a negative count. *)
Definition negative_lane : gmap string (gmap string Z) := {["North" := cars (-3)]}.


(** The request with 10 cars on one lane and -5 on the other. *)
Definition uneven_lanes : gmap string (gmap string Z) :=
  <["A" := cars 10]> (<["B" := cars (-5)]> ∅).

(** ** Further definitions used in the statements *)

(** The weight [calculate_traffic_density] gives to a category. *)
Definition weight_of (self : TrafficSignalOptimizer) (vehicle_type : string) : Q :=
  Py.get (weights self) vehicle_type 1.0%Q.



(** Every count of one table is non-negative. *)
Definition valid_counts (counts : gmap string Z) : Prop :=
  map_Forall (fun _ c => 0 <= c) counts.


(** * Vehicle counter ([vehicle_counter.py], class [VehicleCounter])

    The detector and the drawing primitives of the imaging libraries are
    external: they are the fields of [Vision], taken as functions that
    return.  What the class itself computes, the counts, is modelled in
    full. *)

Module Counter.

Inductive exn : Type :=
  | ValueError (message : string)
  | AttributeError
  | KeyError (cls : Z).

Definition py : Type -> Type := sum exn.

Definition raise {A : Type} (e : exn) : py A := inl e.

#[global] Instance counter_ret : MRet py := fun A a => inr a.
#[global] Instance counter_bind : MBind py :=
  fun A B k m => match m with inl e => inl e | inr a => k a end.

(** [d[k]] on a dict with integer keys. *)
Definition getitem {A : Type} (d : gmap Z A) (k : Z) : py A :=
  match d !! k with
  | Some v => mret v
  | None => raise (KeyError k)
  end.

(** A [for] loop whose body can raise. *)
Fixpoint for_each {S B : Type} (body : S -> B -> py S) (s : S) (l : list B)
    : py S :=
  match l with
  | [] => mret s
  | x :: l' => s' ← body s x; for_each body s' l'
  end.

(** The external operations. *)
Record Vision : Type := {
  Image : Type;
  Box : Type;
  (** [cv2.imread(path)]: [None] when the file cannot be read *)
  imread : string -> option Image;
  (** [self.model(image)]: the results, each with its boxes *)
  detect : Image -> list (list Box);
  (** [int(box.cls[0].item())] *)
  cls : Box -> Z;
  (** [box.conf[0].item()] *)
  conf : Box -> Q;
  (** [image.copy()] *)
  copy : Image -> Image;
  (** the rectangle and the label drawn for a counted box *)
  draw_detection : Image -> Box -> string -> Image;
  (** the summary box, from the total and the lines of the classes *)
  draw_summary : Image -> Z -> list (string * Z) -> Image
}.

(** The attributes set by [__init__], the detector apart. *)
Record VehicleCounter : Type := {
  vehicle_classes : list Z;
  class_names : gmap Z string;
  conf_threshold : Q
}.

(** [VehicleCounter(conf_threshold=...)]. *)
Definition init (conf_threshold : Q) : VehicleCounter := {|
  vehicle_classes := [2; 3; 5; 7];
  class_names :=
    <[2 := "car"%string]> (<[3 := "motorcycle"%string]>
      (<[5 := "bus"%string]> (<[7 := "truck"%string]> ∅)));
  conf_threshold := conf_threshold
|}.

(** The argument of [process_image]: a path, an image array, or [None]. *)
Inductive image_input (V : Vision) : Type :=
  | Path (p : string)
  | Array (image : Image V)
  | NoneValue.
Arguments Path {V} p.
Arguments Array {V} image.
Arguments NoneValue {V}.

(** The dict [counts_dict]. *)
Record CountsDict : Type := { total : Z; by_class : gmap string Z }.

(** [cls in self.vehicle_classes and conf > self.conf_threshold]. *)
Definition counted (V : Vision) (self : VehicleCounter) (box : Box V) : bool :=
  bool_decide (cls V box ∈ vehicle_classes self)
  && (if Qlt_le_dec (conf_threshold self) (conf V box) then true else false).

(** The body of the loop over the boxes. *)
Definition tally_box (V : Vision) (self : VehicleCounter)
    (st : Image V * gmap Z Z * Z) (box : Box V) : py (Image V * gmap Z Z * Z) :=
  let '(annotated_image, counts, total_count) := st in
  if counted V self box then
    let c := cls V box in
    let counts := <[c := default 0 (counts !! c) + 1]> counts in
    let total_count := total_count + 1 in
    name ← getitem (class_names self) c;
    mret (draw_detection V annotated_image box name, counts, total_count)
  else mret st.

(** The lines of the summary, one for each class counted. *)
Definition summary_lines (self : VehicleCounter) (counts : gmap Z Z)
    : py (list (string * Z)) :=
  map_fold
    (fun c count acc =>
       lines ← acc;
       name ← getitem (class_names self) c;
       mret (lines ++ [(name, count)]))
    (mret []) counts.

(** [{self.class_names[cls]: count for cls, count in counts.items()}]. *)
Definition by_class_of (self : VehicleCounter) (counts : gmap Z Z)
    : py (gmap string Z) :=
  map_fold
    (fun c count acc =>
       d ← acc;
       name ← getitem (class_names self) c;
       mret (<[name := count]> d))
    (mret ∅) counts.

Definition process_image (V : Vision) (self : VehicleCounter)
    (input : image_input V) : py (Image V * CountsDict) :=
  image ←
    match input with
    | Path p =>
        match imread V p with
        | None => raise (ValueError ("Could not read image at " +:+ p))
        | Some image => mret image
        end
    | Array image => mret image
    | NoneValue => raise AttributeError
    end;
  let annotated_image := copy V image in
  let results := detect V image in
  '(annotated_image, counts, total_count) ←
    for_each (fun st boxes => for_each (tally_box V self) st boxes)
             (annotated_image, ∅, 0) results;
  lines ← summary_lines self counts;
  let annotated_image := draw_summary V annotated_image total_count lines in
  d ← by_class_of self counts;
  mret (annotated_image, {| total := total_count; by_class := d |}).

(** The number of boxes counted for class [c]. *)
Definition class_count (V : Vision) (self : VehicleCounter)
    (boxes : list (Box V)) (c : Z) : Z :=
  Z.of_nat (length (filter (fun box => counted V self box = true /\ cls V box = c)
                           boxes)).

(** The number of boxes counted. *)
Definition counted_total (V : Vision) (self : VehicleCounter)
    (boxes : list (Box V)) : Z :=
  Z.of_nat (length (filter (fun box => counted V self box = true) boxes)).

(** The sum of the values of a count table. *)
Definition table_sum {K : Type} `{Countable K} (m : gmap K Z) : Z :=
  map_fold (fun _ v acc => acc + v) 0 m.

(** The state of the loop over the boxes, when the names are found. *)
Definition tally_pure (V : Vision) (self : VehicleCounter)
    (st : Image V * gmap Z Z * Z) (box : Box V) : Image V * gmap Z Z * Z :=
  let '(annotated_image, counts, total_count) := st in
  if counted V self box then
    let c := cls V box in
    (draw_detection V annotated_image box (default ""%string (class_names self !! c)),
     <[c := default 0 (counts !! c) + 1]> counts,
     total_count + 1)
  else st.

(** The class number of a name of [init]. *)
Definition class_of_name (name : string) : option Z :=
  if decide (name = "car"%string) then Some 2
  else if decide (name = "motorcycle"%string) then Some 3
  else if decide (name = "bus"%string) then Some 5
  else if decide (name = "truck"%string) then Some 7
  else None.

(** The count [process_image] reports for a name of [init]: the number of
    boxes counted for its class, and no entry when there is none. *)
Definition name_count (V : Vision) (self : VehicleCounter)
    (boxes : list (Box V)) (name : string) : option Z :=
  match class_of_name name with
  | Some c =>
      if decide (class_count V self boxes c = 0) then None
      else Some (class_count V self boxes c)
  | None => None
  end.

End Counter.

(** A detector for examples: an image is the list of its results, a box is
    its class number and its confidence; nothing is drawn. *)
Definition list_vision : Counter.Vision := {|
  Counter.Image := list (list (Z * Q));
  Counter.Box := Z * Q;
  Counter.imread := fun _ => None;
  Counter.detect := fun image => image;
  Counter.cls := fst;
  Counter.conf := snd;
  Counter.copy := fun image => image;
  Counter.draw_detection := fun image _ _ => image;
  Counter.draw_summary := fun image _ _ => image
|}.

(** An image with two cars, a person and a truck in one result and a
    motorcycle in another. *)
Definition sample_image : Counter.Image list_vision :=
  [[(2, 0.9%Q); (2, 0.25%Q); (0, 0.99%Q); (7, 0.5%Q)]; [(3, 0.3%Q)]].

(** * The application script ([app.py])

    The widgets are external: the model takes what the uploaders returned
    and gives what the script shows. *)

Module App.

(** The exceptions that can leave the script, whichever module raises
    them. *)
Inductive exn : Type :=
  | ValueError (message : string)
  | AttributeError
  | ZeroDivisionError
  | KeyError (key : string)
  | IntKeyError (key : Z).

Definition py : Type -> Type := sum exn.

#[global] Instance app_ret : MRet py := fun A a => inr a.
#[global] Instance app_bind : MBind py :=
  fun A B k m => match m with inl e => inl e | inr a => k a end.

(** A call into [vehicle_counter.py]. *)
Definition of_counter {A : Type} (r : Counter.py A) : py A :=
  match r with
  | inl (Counter.ValueError message) => inl (ValueError message)
  | inl Counter.AttributeError => inl AttributeError
  | inl (Counter.KeyError c) => inl (IntKeyError c)
  | inr a => inr a
  end.

(** A call into [traffic_optimizer.py], or a subscript of a dict with
    string keys. *)
Definition of_optimizer {A : Type} (r : Py.py A) : py A :=
  match r with
  | inl Py.ZeroDivisionError => inl ZeroDivisionError
  | inl (Py.KeyError k) => inl (KeyError k)
  | inr a => inr a
  end.

(** [optimization_results['lanes']]. *)
Definition lanes_of (optimization_results : Results) : gmap string LaneTiming :=
  lanes optimization_results.

(** [lanes = ['North', 'South', 'East', 'West']]. *)
Definition lanes : list string := ["North"; "South"; "East"; "West"]%string.

(** What an uploader holds once a file is chosen: the image that
    [cv2.imdecode] makes of its bytes, or [None] when they do not decode. *)
Inductive upload (V : Counter.Vision) : Type :=
  | Decoded (image : Counter.Image V)
  | Undecodable.
Arguments Decoded {V} image.
Arguments Undecodable {V}.

(** The dict [lane_files]: for each of the four lanes, what its uploader
    returned, [None] without a file. *)
Definition lane_files {V : Counter.Vision}
    (north south east west : option (upload V)) : gmap string (option (upload V)) :=
  <["North" := north]> (<["South" := south]>
    (<["East" := east]> (<["West" := west]> ∅))).

(** One column of the results. *)
Record Row (V : Counter.Vision) : Type := {
  row_lane : string;
  row_image : Counter.Image V;
  row_timing : LaneTiming;
  row_counts : gmap string Z
}.
Arguments row_lane {V} _.
Arguments row_image {V} _.
Arguments row_timing {V} _.
Arguments row_counts {V} _.

(** What the script shows after the button is pressed. *)
Inductive screen (V : Counter.Vision) : Type :=
  | ErrorMessage (message : string)
  | ResultsShown (total_cycle_time : Z) (rows : list (Row V)).
Arguments ErrorMessage {V} message.
Arguments ResultsShown {V} total_cycle_time rows.

(** [all(lane_files.values())]. *)
Definition all_uploaded {V : Counter.Vision}
    (files : gmap string (option (upload V))) : bool :=
  bool_decide (map_Forall (fun _ f => is_Some f) files).

(** The loop that processes the image of each lane. *)
Definition process_lanes (V : Counter.Vision) (counter : Counter.VehicleCounter)
    (files : gmap string (option (upload V)))
    : py (gmap string (gmap string Z) * gmap string (Counter.Image V)) :=
  map_fold
    (fun lane uploaded_file acc =>
       '(lane_counts, processed_images) ← acc;
       image_input ←
         match uploaded_file with
         | Some (Decoded image) => mret (Counter.Array image)
         | Some Undecodable => mret Counter.NoneValue
         | None => inl AttributeError
         end;
       '(annotated_image, counts) ←
         of_counter (Counter.process_image V counter image_input);
       mret (<[lane := Counter.by_class counts]> lane_counts,
             <[lane := annotated_image]> processed_images))
    (mret (∅, ∅)) files.

(** The body of the branch taken when the button is pressed. *)
Definition analyze (V : Counter.Vision) (counter : Counter.VehicleCounter)
    (optimizer : TrafficSignalOptimizer)
    (files : gmap string (option (upload V))) : py (screen V) :=
  if negb (all_uploaded files) then
    mret (ErrorMessage "Please upload images for all 4 lanes to proceed.")
  else
    '(lane_counts, processed_images) ← process_lanes V counter files;
    optimization_results ← of_optimizer (optimize_signals optimizer lane_counts);
    rows ← mapM
      (fun lane =>
         image ← of_optimizer (Py.getitem processed_images lane);
         lane_data ← of_optimizer (Py.getitem (lanes_of optimization_results) lane);
         counts ← of_optimizer (Py.getitem lane_counts lane);
         mret {| row_lane := lane;
                 row_image := image;
                 row_timing := lane_data;
                 row_counts := filter (fun kv => 0 < kv.2) counts |})
      lanes;
    mret (ResultsShown (actual_cycle_time optimization_results) rows).

End App.

(** * A second embedding of [traffic_optimizer.py]: binary64 numbers,
      object state and ordered dicts

    The embedding above takes a [float] as an exact rational and the
    optimizer object as an immutable record.  This one keeps what those
    two choices leave out: a [float] is an IEEE 754 binary64 number
    ([spec_float] with precision 53), so that overflow, infinities and NaN
    and the exceptions they lead to are there; a method runs against the
    state of the object it is called on, and every [self.x] is a read of
    that state; a dict is the list of its items in insertion order.  The
    [int] 0 that [density] and [Y] start from is taken as the float 0.0,
    which is what the first addition of a float makes of it. *)

Module F64.

Inductive exn : Type :=
  | ZeroDivisionError
  | KeyError (key : string)
  | ValueError
  | OverflowError.

(** ** Binary64 *)

Definition float : Type := spec_float.

Definition prec : Z := 53.
Definition emax : Z := 1024.

Definition fadd : float -> float -> float := SFadd prec emax.
Definition fsub : float -> float -> float := SFsub prec emax.
Definition fmul : float -> float -> float := SFmul prec emax.
Definition fdiv : float -> float -> float := SFdiv prec emax.
Definition flt : float -> float -> bool := SFltb.
Definition fle : float -> float -> bool := SFleb.

Definition is_finite (x : float) : bool :=
  match x with
  | S754_zero _ | S754_finite _ _ _ => true
  | S754_infinity _ | S754_nan => false
  end.

Definition is_zero (x : float) : bool :=
  match x with
  | S754_zero _ => true
  | _ => false
  end.

(** The double nearest to the integer [n], ties to even; infinite when
    [n] is out of range. *)
Definition nearest_int (n : Z) : float := binary_normalize prec emax n 0 false.

(** The double nearest to [n / d] for [0 <= n] and [0 < d], with the sign
    [neg]: the quotient is taken with at least 55 bits and a sticky bit
    below them, then rounded once. *)
Definition nearest_ratio (neg : bool) (n d : Z) : float :=
  if n =? 0 then S754_zero neg
  else
    let k := Z.max 0 (55 + Zdigits2 d - Zdigits2 n) in
    let q := (n * 2 ^ k) / d in
    let r := (n * 2 ^ k) mod d in
    let m := 2 * q + (if r =? 0 then 0 else 1) in
    binary_normalize prec emax (cond_Zopp neg m) (- k - 1) false.

(** A decimal literal [n / d] of the source, as the parser reads it. *)
Definition literal (n d : Z) : float := nearest_ratio false n d.

(** The exact value of a finite double. *)
Definition to_Q (x : float) : Q :=
  match x with
  | S754_finite s m e =>
      let v := if 0 <=? e then inject_Z (Zpos m * 2 ^ e)
               else Qmake (Zpos m) (Z.to_pos (2 ^ (- e))) in
      if s then (- v)%Q else v
  | _ => 0%Q
  end.

(** [float(n)] for an [int]. *)
Definition float_of_int (n : Z) : exn + float :=
  let x := nearest_int n in
  if is_finite x then inr x else inl OverflowError.

(** [a / b] on floats. *)
Definition truediv (a b : float) : exn + float :=
  if is_zero b then inl ZeroDivisionError else inr (fdiv a b).

(** [a / b] on two [int]s: the double nearest to the exact quotient. *)
Definition int_truediv (a b : Z) : exn + float :=
  if b =? 0 then inl ZeroDivisionError
  else
    let x := nearest_ratio (xorb (a <? 0) (b <? 0)) (Z.abs a) (Z.abs b) in
    if is_finite x then inr x else inl OverflowError.

(** [min(a, b)]: the second argument is taken only when strictly smaller. *)
Definition min (a b : float) : float := if flt b a then b else a.

(** [int(x)] on a float: truncation toward zero. *)
Definition int (x : float) : exn + Z :=
  match x with
  | S754_nan => inl ValueError
  | S754_infinity _ => inl OverflowError
  | S754_zero _ => inr 0
  | S754_finite s m e =>
      inr (cond_Zopp s (if 0 <=? e then Zpos m * 2 ^ e else Zpos m / 2 ^ (- e)))
  end.

(** [round(x)] on a float: nearest integer, ties to even. *)
Definition round (x : float) : exn + Z :=
  match x with
  | S754_nan => inl ValueError
  | S754_infinity _ => inl OverflowError
  | _ => inr (Py.round (to_Q x))
  end.

(** [round(x, 3)]: the double nearest to the exact value of [x] rounded to
    three decimals, ties to even; [x] itself when it is not finite. *)
Definition round_3 (x : float) : float :=
  match x with
  | S754_finite s m e =>
      nearest_ratio s (Py.round (to_Q (S754_finite false m e) * 1000)) 1000
  | _ => x
  end.

(** ** Ordered dicts *)

Definition dict (V : Type) : Type := list (string * V).

Fixpoint lookup {V : Type} (d : dict V) (k : string) : option V :=
  match d with
  | [] => None
  | (k', v) :: d' => if String.eqb k k' then Some v else lookup d' k
  end.

(** [d[k] = v]: in place when the key is there, at the end otherwise. *)
Fixpoint set {V : Type} (d : dict V) (k : string) (v : V) : dict V :=
  match d with
  | [] => [(k, v)]
  | (k', v') :: d' =>
      if String.eqb k k' then (k, v) :: d' else (k', v') :: set d' k v
  end.

(** [d[k]]. *)
Definition getitem {V : Type} (d : dict V) (k : string) : exn + V :=
  match lookup d k with
  | Some v => inr v
  | None => inl (KeyError k)
  end.

(** [d.get(k, dflt)]. *)
Definition get {V : Type} (d : dict V) (k : string) (dflt : V) : V :=
  default dflt (lookup d k).

Definition keys {V : Type} (d : dict V) : list string := d.*1.

(** ** The object and the monad of its methods *)

Record TrafficSignalOptimizer : Type := {
  weights : dict float;
  saturation_flow : float;
  lost_time_per_phase : Z;
  min_green_time : Z;
  min_cycle_time : Z;
  max_cycle_time : Z
}.

(** A method body: from the state of [self] to an outcome and the state
    of [self] afterwards. *)
Definition M (A : Type) : Type :=
  TrafficSignalOptimizer -> (exn + A) * TrafficSignalOptimizer.

#[global] Instance f64_ret : MRet M := fun A a s => (inr a, s).
#[global] Instance f64_bind : MBind M :=
  fun A B k m s =>
    match m s with
    | (inl e, s') => (inl e, s')
    | (inr a, s') => k a s'
    end.

(** An operation that does not touch [self]. *)
Definition lift {A : Type} (r : exn + A) : M A := fun s => (r, s).

(** [self.x], read. *)
Definition getattr {A : Type} (x : TrafficSignalOptimizer -> A) : M A :=
  fun s => (inr (x s), s).

(** [self.x = v], by the function that rewrites the field. *)
Definition setattr (update : TrafficSignalOptimizer -> TrafficSignalOptimizer)
    : M unit :=
  fun s => (inr tt, update s).

(** A [for] loop over a list. *)
Fixpoint for_each {S B : Type} (body : S -> B -> M S) (s : S) (l : list B)
    : M S :=
  match l with
  | [] => mret s
  | x :: l' => s' ← body s x; for_each body s' l'
  end.

(** ** [__init__] *)

Definition __init__ : M unit :=
  setattr (fun s => {| weights :=
                         [("car"%string, literal 10 10);
                          ("motorcycle"%string, literal 5 10);
                          ("bus"%string, literal 30 10);
                          ("truck"%string, literal 25 10)];
                       saturation_flow := saturation_flow s;
                       lost_time_per_phase := lost_time_per_phase s;
                       min_green_time := min_green_time s;
                       min_cycle_time := min_cycle_time s;
                       max_cycle_time := max_cycle_time s |});;
  setattr (fun s => {| weights := weights s;
                       saturation_flow := literal 300 10;
                       lost_time_per_phase := lost_time_per_phase s;
                       min_green_time := min_green_time s;
                       min_cycle_time := min_cycle_time s;
                       max_cycle_time := max_cycle_time s |});;
  setattr (fun s => {| weights := weights s;
                       saturation_flow := saturation_flow s;
                       lost_time_per_phase := 4;
                       min_green_time := min_green_time s;
                       min_cycle_time := min_cycle_time s;
                       max_cycle_time := max_cycle_time s |});;
  setattr (fun s => {| weights := weights s;
                       saturation_flow := saturation_flow s;
                       lost_time_per_phase := lost_time_per_phase s;
                       min_green_time := 10;
                       min_cycle_time := min_cycle_time s;
                       max_cycle_time := max_cycle_time s |});;
  setattr (fun s => {| weights := weights s;
                       saturation_flow := saturation_flow s;
                       lost_time_per_phase := lost_time_per_phase s;
                       min_green_time := min_green_time s;
                       min_cycle_time := 60;
                       max_cycle_time := max_cycle_time s |});;
  setattr (fun s => {| weights := weights s;
                       saturation_flow := saturation_flow s;
                       lost_time_per_phase := lost_time_per_phase s;
                       min_green_time := min_green_time s;
                       min_cycle_time := min_cycle_time s;
                       max_cycle_time := 150 |}).

(** An object before [__init__] has run. *)
Definition blank : TrafficSignalOptimizer := {|
  weights := [];
  saturation_flow := S754_zero false;
  lost_time_per_phase := 0;
  min_green_time := 0;
  min_cycle_time := 0;
  max_cycle_time := 0
|}.

(** [TrafficSignalOptimizer()]. *)
Definition new : TrafficSignalOptimizer := (__init__ blank).2.

(** ** Results *)

Record LaneData : Type := { pcu : float; y : float }.

Record LaneTiming : Type := {
  green_time : Z;
  red_time : Z;
  yellow_time : Z;
  density_score : float;
  flow_ratio : float
}.

Record Results : Type := {
  cycle_time : Z;
  lanes : dict LaneTiming;
  saturation_degree : float;
  actual_cycle_time : Z
}.

(** ** [calculate_traffic_density] *)

(** Lines 31 to 33: the body of the loop, on one category. *)
Definition density_body : float -> string * Z -> M float :=
  fun density '(vehicle_type, count) =>
    ws ← getattr weights;
    let weight := get ws vehicle_type (literal 10 10) in
    c ← lift (float_of_int count);
    mret (fadd density (fmul c weight)).

Definition calculate_traffic_density (counts : dict Z) : M float :=
  for_each density_body (S754_zero false) counts.

(** ** [optimize_signals] *)

(** Lines 46 to 58: the body of the first loop, on one lane. *)
Definition flow_ratio_body
    : dict LaneData * float -> string * dict Z -> M (dict LaneData * float) :=
  fun '(lane_data, Y) '(lane, counts) =>
    pcu_count ← calculate_traffic_density counts;
    sf ← getattr saturation_flow;
    y ← lift (truediv pcu_count sf);
    mret (set lane_data lane {| pcu := pcu_count; y := y |}, fadd Y y).

(** Lines 42 to 58: the flow ratio of each lane and their sum [Y]. *)
Definition flow_ratio_loop (lane_counts : dict (dict Z))
    : M (dict LaneData * float) :=
  for_each flow_ratio_body ([], S754_zero false) lane_counts.

(** The value of [optimal_cycle]: a float from Webster's formula, or the
    [int] held by [min_cycle_time]. *)
Inductive number : Type :=
  | Int (n : Z)
  | Float (x : float).

(** [int(v)]. *)
Definition int_of (v : number) : exn + Z :=
  match v with
  | Int n => inr n
  | Float x => int x
  end.

(** Lines 70 to 73: Webster's formula on the clamped sum. *)
Definition optimal_cycle (L : Z) (Y_clamped : float) : M number :=
  if flt (S754_zero false) Y_clamped
  then
    Lf ← lift (float_of_int L);
    five ← lift (float_of_int 5);
    one ← lift (float_of_int 1);
    oc ← lift (truediv (fadd (fmul (literal 15 10) Lf) five) (fsub one Y_clamped));
    mret (Float oc)
  else
    mc ← getattr min_cycle_time;
    mret (Int mc).

(** Lines 64 to 76: the total lost time [L] and the nominal cycle. *)
Definition cycle_stage (Y : float) : M (Z * Z) :=
  lost ← getattr lost_time_per_phase;
  let L := lost * 4 in
  let Y_clamped := min Y (literal 95 100) in
  oc ← optimal_cycle L Y_clamped;
  mn ← getattr min_cycle_time;
  mx ← getattr max_cycle_time;
  i ← lift (int_of oc);
  mret (L, Z.max mn (Z.min mx i)).

(** Line 97 or 99: the raw green time of a lane. *)
Definition raw_green (Y : float) (total_effective_green : Z) (y : float)
    : M float :=
  if flt (S754_zero false) Y
  then
    q ← lift (truediv y Y);
    teg ← lift (float_of_int total_effective_green);
    mret (fmul q teg)
  else lift (int_truediv total_effective_green 4).

(** Lines 94 to 115: the body of the second loop, on one lane. *)
Definition green_body (lane_data : dict LaneData) (Y : float)
    (cycle_time total_effective_green : Z)
    : dict LaneTiming * Z -> string * dict Z -> M (dict LaneTiming * Z) :=
  fun '(lanes, allocated_green_sum) '(lane, _) =>
    d ← lift (getitem lane_data lane);
    let y := y d in
    raw ← raw_green Y total_effective_green y;
    rounded ← lift (round raw);
    mg ← getattr min_green_time;
    let green_time := Z.max mg rounded in
    lost ← getattr lost_time_per_phase;
    let red_time := cycle_time - green_time - lost in
    lost' ← getattr lost_time_per_phase;
    d' ← lift (getitem lane_data lane);
    mret (set lanes lane {| green_time := green_time;
                            red_time := red_time;
                            yellow_time := lost';
                            density_score := pcu d';
                            flow_ratio := round_3 y |},
          allocated_green_sum + green_time).

(** Lines 89 to 115: the timing of each lane and the sum of the greens. *)
Definition green_loop (lane_data : dict LaneData) (Y : float)
    (cycle_time total_effective_green : Z) (lane_counts : dict (dict Z))
    : M (dict LaneTiming * Z) :=
  for_each (green_body lane_data Y cycle_time total_effective_green)
    ([], 0) lane_counts.

Definition optimize_signals (lane_counts : dict (dict Z)) : M Results :=
  '(lane_data, Y) ← flow_ratio_loop lane_counts;
  '(L, cycle_time) ← cycle_stage Y;
  let total_effective_green := cycle_time - L in
  '(lanes, allocated_green_sum) ←
    green_loop lane_data Y cycle_time total_effective_green lane_counts;
  mret {| cycle_time := cycle_time;
          lanes := lanes;
          saturation_degree := Y;
          actual_cycle_time := allocated_green_sum + L |}.

(** ** Notions used in the statements *)

(** A method body that leaves the object as it found it. *)
Definition preserves {A : Type} (m : M A) : Prop := forall s, (m s).2 = s.

(** The outcome of a method body run on the object [s]. *)
Definition outcome {A : Type} (m : M A) (s : TrafficSignalOptimizer) : exn + A :=
  (m s).1.

(** Line 97 under the default configuration and the maximal cycle: the
    share of the 134 s of effective green of a lane with flow ratio [y]. *)
Definition share (Y y : float) : float := fmul (fdiv y Y) (nearest_int 134).

(** The share of a lane is there and finite. *)
Definition finite_share (lane_data : dict LaneData) (Y : float) (lane : string)
    : Prop :=
  exists d, lookup lane_data lane = Some d /\ is_finite (share Y (y d)) = true.

(** Every count of the lane is in the range of a float. *)
Definition convertible (counts : dict Z) : Prop :=
  Forall (fun c => is_finite (nearest_int c.2) = true) counts.

(** The default configuration with a saturation flow of 0.0. *)
Definition zero_flow : TrafficSignalOptimizer := {|
  weights := weights new;
  saturation_flow := S754_zero false;
  lost_time_per_phase := 4;
  min_green_time := 10;
  min_cycle_time := 60;
  max_cycle_time := 150
|}.

(** One lane of three cars fewer than none. *)
Definition negative_lane : dict (dict Z) :=
  [("North"%string, [("car"%string, -3)])].

(** Four lanes of 7, 7, 7 and 9 cars. *)
Definition cars_7_7_7_9 : dict (dict Z) :=
  [("North"%string, [("car"%string, 7)]);
   ("South"%string, [("car"%string, 7)]);
   ("East"%string, [("car"%string, 7)]);
   ("West"%string, [("car"%string, 9)])].

(** A request with one lane of [10 ^ 308] buses. *)
Definition huge_bus_lane : dict (dict Z) :=
  [("North"%string, [("bus"%string, 10 ^ 308)])].

End F64.

(** ** Runtime lemmas *)

Lemma truediv_ok (a b : Q) : ~ (b == 0)%Q -> Py.truediv a b = inr (a / b)%Q.
Proof.
  intros Hb. unfold Py.truediv.
  destruct (Qeq_bool b 0) eqn:E; [|reflexivity].
  apply Qeq_bool_iff in E. contradiction.
Qed.

Lemma min_le_r (a b : Q) : (Py.min a b <= b)%Q.
Proof. unfold Py.min. destruct (Qlt_le_dec b a); lra. Qed.

Lemma min_le_l (a b : Q) : (Py.min a b <= a)%Q.
Proof. unfold Py.min. destruct (Qlt_le_dec b a); lra. Qed.

Lemma min_lt_r (a b : Q) : (b < a)%Q -> Py.min a b = b.
Proof. intros H. unfold Py.min. destruct (Qlt_le_dec b a); [reflexivity|lra]. Qed.

Lemma min_le_id (a b : Q) : (a <= b)%Q -> Py.min a b = a.
Proof. intros H. unfold Py.min. destruct (Qlt_le_dec b a); [lra|reflexivity]. Qed.

Lemma getitem_Some {A : Type} (d : gmap string A) (k : string) (v : A) :
  d !! k = Some v -> Py.getitem d k = inr v.
Proof. intros H. unfold Py.getitem. by rewrite H. Qed.

(** ** The loops return their closed forms *)

Lemma green_sum_insert (ls : gmap string LaneTiming) (k : string) (t : LaneTiming) :
  ls !! k = None -> green_sum (<[k := t]> ls) = green_sum ls + green_time t.
Proof.
  intros Hk. unfold green_sum.
  rewrite map_fold_insert_L; [reflexivity| |exact Hk].
  intros. lia.
Qed.

Lemma flow_ratio_loop_ok (self : TrafficSignalOptimizer)
    (lane_counts : gmap string (gmap string Z)) :
  ~ (saturation_flow self == 0)%Q ->
  flow_ratio_loop self lane_counts
  = inr (lane_datum self <$> lane_counts, saturation_sum self lane_counts).
Proof.
  intros Hsf. unfold flow_ratio_loop, saturation_sum.
  induction lane_counts as [|lane counts m Hnone Hfirst IH] using map_first_key_ind.
  - by rewrite !map_fold_empty, fmap_empty.
  - rewrite !map_fold_insert_first_key by done.
    rewrite IH. cbn. rewrite truediv_ok by done. cbn.
    by rewrite fmap_insert.
Qed.

Lemma green_loop_ok (self : TrafficSignalOptimizer)
    (lane_data : gmap string LaneData) (g : gmap string Z -> LaneData)
    (Y : Q) (ct teg : Z) (m : gmap string (gmap string Z)) :
  (forall k c, m !! k = Some c -> lane_data !! k = Some (g c)) ->
  let ls := (fun c => lane_timing self Y ct teg (g c)) <$> m in
  green_loop self lane_data Y ct teg m = inr (ls, green_sum ls).
Proof.
  intros Hld. cbn zeta. unfold green_loop.
  induction m as [|lane counts m Hnone Hfirst IH] using map_first_key_ind.
  - by rewrite map_fold_empty, fmap_empty.
  - rewrite map_fold_insert_first_key by done.
    rewrite IH.
    2:{ intros k c Hk. apply Hld. rewrite lookup_insert_ne; [done|].
        intros ->. congruence. }
    cbn. rewrite (getitem_Some _ _ (g counts)).
    2:{ apply Hld. by rewrite lookup_insert_eq. }
    cbn. rewrite fmap_insert, green_sum_insert.
    2:{ by rewrite lookup_fmap, Hnone. }
    unfold lane_timing, raw_green_of.
    destruct (Qlt_le_dec 0 Y) as [Hpos|Hle]; cbn.
    + rewrite truediv_ok by lra. reflexivity.
    + reflexivity.
Qed.

Lemma optimize_signals_plan (self : TrafficSignalOptimizer)
    (lane_counts : gmap string (gmap string Z)) :
  ~ (saturation_flow self == 0)%Q ->
  optimize_signals self lane_counts = inr (plan self lane_counts).
Proof.
  intros Hsf. unfold optimize_signals.
  rewrite flow_ratio_loop_ok by done. cbn.
  set (Y := saturation_sum self lane_counts).
  assert (Hden : ~ (1 - Py.min Y 0.95 == 0)%Q).
  { pose proof (min_le_r Y 0.95%Q). lra. }
  assert (Hloop : forall ct teg,
    green_loop self (lane_datum self <$> lane_counts) Y ct teg lane_counts
    = inr ((fun c => lane_timing self Y ct teg (lane_datum self c)) <$> lane_counts,
           green_sum ((fun c => lane_timing self Y ct teg (lane_datum self c))
                        <$> lane_counts))).
  { intros ct teg. apply (green_loop_ok self _ (lane_datum self)).
    intros k c Hk. by rewrite lookup_fmap, Hk. }
  unfold plan, nominal_cycle. fold Y.
  destruct (Qlt_le_dec 0 (Py.min Y 0.95)) as [Hpos|Hle]; cbn.
  - rewrite truediv_ok by done. cbn. rewrite Hloop. reflexivity.
  - rewrite Hloop. reflexivity.
Qed.

Lemma init_saturation_flow : ~ (saturation_flow init == 0)%Q.
Proof. vm_compute. discriminate. Qed.

(** Every request is answered by its closed form: no exception is raised. *)
Lemma optimize_signals_init (lane_counts : gmap string (gmap string Z)) :
  optimize_signals init lane_counts = inr (plan init lane_counts).
Proof. apply optimize_signals_plan, init_saturation_flow. Qed.

(** ** Density *)

Lemma density_is_sum (self : TrafficSignalOptimizer) (counts : gmap string Z) :
  (calculate_traffic_density self counts == density_spec self counts)%Q.
Proof.
  unfold calculate_traffic_density, density_spec.
  rewrite map_fold_foldr.
  induction (map_to_list counts) as [|[k c] l IH]; cbn.
  - reflexivity.
  - rewrite IH. unfold Py.get. cbn. apply Qplus_comm.
Qed.

Lemma density_doubled (self : TrafficSignalOptimizer) (counts : gmap string Z) :
  (calculate_traffic_density self (doubled counts)
   == 2 * calculate_traffic_density self counts)%Q.
Proof.
  unfold calculate_traffic_density, doubled.
  rewrite map_fold_fmap, !map_fold_foldr.
  induction (map_to_list counts) as [|[k c] l IH]; cbn.
  - reflexivity.
  - rewrite IH, inject_Z_mult. change (inject_Z 2) with 2%Q.
    generalize (Py.get (weights self) k 1.0%Q); intros w.
    match goal with |- (2 * ?s + _ == _)%Q => generalize s end. intros s.
    ring.
Qed.

Lemma density_all_zero (self : TrafficSignalOptimizer) (counts : gmap string Z) :
  map_Forall (fun _ c => c = 0) counts ->
  (calculate_traffic_density self counts == 0)%Q.
Proof.
  unfold calculate_traffic_density.
  induction counts as [|k c m Hnone Hfirst IH] using map_first_key_ind; intros Hz.
  - by rewrite map_fold_empty.
  - rewrite map_fold_insert_first_key by done.
    apply map_Forall_insert in Hz as [-> Hm]; [|done].
    rewrite (IH Hm). cbn. ring.
Qed.

Lemma saturation_sum_all_zero (self : TrafficSignalOptimizer)
    (lane_counts : gmap string (gmap string Z)) :
  all_zero lane_counts -> (saturation_sum self lane_counts == 0)%Q.
Proof.
  unfold saturation_sum, all_zero.
  induction lane_counts as [|k c m Hnone Hfirst IH] using map_first_key_ind; intros Hz.
  - by rewrite map_fold_empty.
  - rewrite map_fold_insert_first_key by done.
    apply map_Forall_insert in Hz as [Hc Hm]; [|done].
    rewrite (IH Hm). cbn. rewrite (density_all_zero self c Hc).
    unfold Qdiv. ring.
Qed.

(** C6.  For every count table and every weight table,
    [calculate_traffic_density] is the sum over the categories of the
    count times the weight (1.0 for an unconfigured category); doubling
    every count doubles the density; the empty table has density 0.  The
    three facts hold for all integer counts, the non-negative ones
    included. *)
Theorem density_sum_linear_empty
    (self : TrafficSignalOptimizer) (counts : gmap string Z) :
  (calculate_traffic_density self counts == density_spec self counts)%Q
  /\ (calculate_traffic_density self (doubled counts)
      == 2 * calculate_traffic_density self counts)%Q
  /\ calculate_traffic_density self ∅ = 0%Q.
Proof.
  split; [apply density_is_sum|].
  split; [apply density_doubled|].
  unfold calculate_traffic_density. by rewrite map_fold_empty.
Qed.

(** ** Lane tables *)

Lemma plan_lanes_lookup (self : TrafficSignalOptimizer)
    (lane_counts : gmap string (gmap string Z)) (lane : string) (t : LaneTiming) :
  lanes (plan self lane_counts) !! lane = Some t ->
  exists counts,
    lane_counts !! lane = Some counts
    /\ t = lane_timing self (saturation_sum self lane_counts)
             (cycle_time (plan self lane_counts))
             (cycle_time (plan self lane_counts) - total_lost_time self)
             (lane_datum self counts).
Proof.
  cbn. rewrite lookup_fmap. intros Ht.
  destruct (lane_counts !! lane) as [counts|]; [|discriminate].
  exists counts. split; [reflexivity|]. cbn in Ht. congruence.
Qed.

Lemma green_sum_lower_bound (b : Z) (ls : gmap string LaneTiming) :
  map_Forall (fun _ t => b <= green_time t) ls ->
  b * Z.of_nat (size ls) <= green_sum ls.
Proof.
  induction ls as [|k t m Hnone Hfirst IH] using map_first_key_ind; intros Hall.
  - unfold green_sum. rewrite map_fold_empty, map_size_empty. lia.
  - apply map_Forall_insert in Hall as [Ht Hm]; [|done].
    rewrite green_sum_insert, map_size_insert_None by done.
    specialize (IH Hm). lia.
Qed.

Lemma plan_green_floor (self : TrafficSignalOptimizer)
    (lane_counts : gmap string (gmap string Z)) :
  map_Forall (fun _ t => min_green_time self <= green_time t)
             (lanes (plan self lane_counts)).
Proof.
  intros lane t Ht. apply plan_lanes_lookup in Ht as (counts & _ & ->).
  cbn. lia.
Qed.

(** ** Rounding and the sum of the green times *)

Lemma round_ge (x : Q) : (x - (1 # 2) <= inject_Z (Py.round x))%Q.
Proof.
  unfold Py.round.
  pose proof (Qfloor_le x) as Hlo.
  pose proof (Qlt_floor x) as Hhi.
  rewrite inject_Z_plus in Hhi.
  destruct (Qcompare_spec (x - inject_Z (Qfloor x)) (1 # 2)) as [He|Hl|Hg].
  - destruct (Z.even (Qfloor x)); [|rewrite inject_Z_plus]; lra.
  - lra.
  - rewrite inject_Z_plus. lra.
Qed.

Lemma nominal_cycle_no_demand (Y : Q) :
  (Y <= 0)%Q -> nominal_cycle init Y = min_cycle_time init.
Proof.
  intros HY. unfold nominal_cycle.
  rewrite min_le_id by (apply Qle_trans with 0%Q; [exact HY|vm_compute; discriminate]).
  destruct (Qlt_le_dec 0 Y) as [Hpos|Hle]; [lra|reflexivity].
Qed.

Lemma raw_green_no_demand (Y : Q) (teg : Z) (d : LaneData) :
  (Y <= 0)%Q -> raw_green_of Y teg d = (inject_Z teg / 4)%Q.
Proof.
  intros HY. unfold raw_green_of.
  destruct (Qlt_le_dec 0 Y) as [Hpos|Hle]; [lra|reflexivity].
Qed.

Lemma green_sum_constant (b : Z) (ls : gmap string LaneTiming) :
  map_Forall (fun _ t => green_time t = b) ls ->
  green_sum ls = b * Z.of_nat (size ls).
Proof.
  induction ls as [|k t m Hnone Hfirst IH] using map_first_key_ind; intros Hall.
  - unfold green_sum. rewrite map_fold_empty, map_size_empty. lia.
  - apply map_Forall_insert in Hall as [Ht Hm]; [|done].
    rewrite green_sum_insert, map_size_insert_None by done.
    specialize (IH Hm). lia.
Qed.

(** With a positive saturation sum, each lane gets at least its
    proportional share less half a second, so the greens of the lanes of
    [m] add up to at least the share of [m] less half a second a lane. *)
Lemma green_sum_share (self : TrafficSignalOptimizer) (Y : Q) (ct teg : Z)
    (m : gmap string (gmap string Z)) :
  (0 < Y)%Q ->
  (saturation_sum self m / Y * inject_Z teg - inject_Z (Z.of_nat (size m)) * (1 # 2)
   <= inject_Z (green_sum ((fun c => lane_timing self Y ct teg (lane_datum self c))
                             <$> m)))%Q.
Proof.
  intros HY. unfold saturation_sum.
  induction m as [|k c m Hnone Hfirst IH] using map_first_key_ind.
  - rewrite map_fold_empty, fmap_empty, map_size_empty.
    unfold green_sum. rewrite map_fold_empty.
    assert (H0 : (0 / Y * inject_Z teg == 0)%Q) by (field; lra).
    rewrite H0. change (inject_Z (Z.of_nat 0)) with 0%Q.
    change (inject_Z 0) with 0%Q. lra.
  - rewrite map_fold_insert_first_key by done.
    rewrite fmap_insert, green_sum_insert by (by rewrite lookup_fmap, Hnone).
    rewrite map_size_insert_None by done.
    rewrite Nat2Z.inj_succ, <- Z.add_1_r, !inject_Z_plus.
    set (S0 := map_fold _ _ m) in *.
    set (gs := green_sum _) in *.
    set (yk := y (lane_datum self c)).
    assert (Hk : (yk / Y * inject_Z teg - (1 # 2)
                  <= inject_Z (green_time
                       (lane_timing self Y ct teg (lane_datum self c))))%Q).
    { unfold lane_timing, green_time, raw_green_of.
      destruct (Qlt_le_dec 0 Y) as [_|Hle]; [|lra].
      fold yk.
      pose proof (round_ge (yk / Y * inject_Z teg)) as Hr.
      pose proof (Z.le_max_r (min_green_time self)
                    (Py.round (yk / Y * inject_Z teg))) as Hmax.
      rewrite Zle_Qle in Hmax. lra. }
    assert (Hsplit : ((S0 + yk) / Y * inject_Z teg
                      == S0 / Y * inject_Z teg + yk / Y * inject_Z teg)%Q)
      by (field; lra).
    rewrite Hsplit. change (inject_Z 1) with 1%Q. lra.
Qed.

(** ** Claims on the timing plan *)

Lemma valid_four_lanes_cars (n s e w : Z) :
  0 <= n -> 0 <= s -> 0 <= e -> 0 <= w ->
  valid_input (four_lanes (cars n) (cars s) (cars e) (cars w)).
Proof.
  intros. unfold valid_input, four_lanes, cars.
  repeat (apply map_Forall_insert_2; [by apply map_Forall_singleton|]).
  apply map_Forall_empty.
Qed.

(** C1, as stated, fails: on the valid four-lane request 7/7/7/9 the
    nominal cycle is 150 s, the greens are 31, 31, 31 and 40 s, and the
    actual cycle is 133 + 16 = 149 s, below the nominal cycle. *)
Lemma actual_cycle_below_nominal :
  valid_input lanes_7_7_7_9
  /\ exists r, optimize_signals init lanes_7_7_7_9 = inr r
       /\ cycle_time r = 150
       /\ green_sum (lanes r) = 133
       /\ actual_cycle_time r = 149
       /\ ~ (cycle_time r <= actual_cycle_time r).
Proof.
  split; [apply valid_four_lanes_cars; lia|].
  exists (plan init lanes_7_7_7_9).
  split; [apply optimize_signals_init|].
  vm_compute. repeat split; try reflexivity. intros H. apply H. reflexivity.
Qed.

(** C1, amended.  Every request is answered, and in the answer the actual
    cycle time is the sum of the green times of the lanes plus the total
    lost time [L = 4 * lost_time_per_phase].  It is at least the minimum
    green time for each of the [n] lanes plus the total lost time.  Against
    the nominal cycle time: with a positive saturation sum, rounding loses
    at most half a second a lane, so twice the actual cycle is at least
    twice the nominal cycle less [n]; with a saturation sum that is not
    positive, the nominal cycle is [min_cycle_time] and the actual cycle is
    [11 * n + L]. *)
Theorem actual_cycle_is_green_sum_plus_lost
    (lane_counts : gmap string (gmap string Z)) :
  exists r, optimize_signals init lane_counts = inr r
    /\ actual_cycle_time r = green_sum (lanes r) + total_lost_time init
    /\ min_green_time init * Z.of_nat (size lane_counts) + total_lost_time init
       <= actual_cycle_time r
    /\ (((0 < saturation_degree r)%Q
         /\ 2 * cycle_time r - Z.of_nat (size lane_counts)
            <= 2 * actual_cycle_time r)
        \/ ((saturation_degree r <= 0)%Q
            /\ cycle_time r = min_cycle_time init
            /\ actual_cycle_time r
               = 11 * Z.of_nat (size lane_counts) + total_lost_time init)).
Proof.
  exists (plan init lane_counts).
  split; [apply optimize_signals_init|].
  split; [reflexivity|].
  split.
  { pose proof (green_sum_lower_bound _ _ (plan_green_floor init lane_counts)) as Hb.
    cbn in Hb |- *. rewrite map_size_fmap in Hb. cbn in Hb. lia. }
  set (Y := saturation_sum init lane_counts).
  destruct (Qlt_le_dec 0 Y) as [Hpos|Hle]; [left|right].
  - split; [exact Hpos|].
    pose proof (green_sum_share init Y (nominal_cycle init Y)
                  (nominal_cycle init Y - total_lost_time init)
                  lane_counts Hpos) as Hs.
    fold Y in Hs.
    assert (H1 : (Y / Y * inject_Z (nominal_cycle init Y - total_lost_time init)
                  == inject_Z (nominal_cycle init Y - total_lost_time init))%Q)
      by (field; lra).
    rewrite H1 in Hs.
    unfold plan, cycle_time, actual_cycle_time. fold Y.
    set (ct := nominal_cycle init Y) in *.
    set (gs := green_sum _) in *.
    set (n := Z.of_nat (size lane_counts)) in *.
    set (L := total_lost_time init) in *.
    assert (Hq : (inject_Z (2 * (ct - L) - n) <= inject_Z (2 * gs))%Q).
    { rewrite !inject_Z_mult. unfold Z.sub at 1.
      rewrite inject_Z_plus, inject_Z_opp, inject_Z_mult.
      change (inject_Z 2) with 2%Q. lra. }
    rewrite <- Zle_Qle in Hq. lia.
  - subst Y. split; [exact Hle|].
    assert (Hct : cycle_time (plan init lane_counts) = min_cycle_time init)
      by (apply nominal_cycle_no_demand, Hle).
    split; [exact Hct|].
    assert (Hall : map_Forall (fun _ t => green_time t = 11)
                     (lanes (plan init lane_counts))).
    { intros lane t Ht. apply plan_lanes_lookup in Ht as (counts & _ & ->).
      rewrite Hct. unfold lane_timing, green_time.
      rewrite raw_green_no_demand by exact Hle. reflexivity. }
    apply green_sum_constant in Hall.
    unfold plan, actual_cycle_time, lanes in Hall |- *.
    rewrite Hall, map_size_fmap. reflexivity.
Qed.

(** C2, as stated, fails: for one lane the total lost time used is 16 s,
    not 4 * 1 s. *)
Lemma lost_time_not_per_lane :
  size one_empty_lane = 1%nat
  /\ total_lost_time init <> lost_time_per_phase init * Z.of_nat (size one_empty_lane)
  /\ exists r, optimize_signals init one_empty_lane = inr r
       /\ actual_cycle_time r - green_sum (lanes r) = 16
       /\ actual_cycle_time r - green_sum (lanes r)
          <> lost_time_per_phase init * Z.of_nat (size one_empty_lane).
Proof.
  split; [reflexivity|].
  split; [vm_compute; discriminate|].
  exists (plan init one_empty_lane).
  split; [apply optimize_signals_init|].
  vm_compute. split; [reflexivity|discriminate].
Qed.

(** C2, amended.  For every request, whatever its number of lanes, the
    total lost time used by the solver is [lost_time_per_phase] times
    four (the fixed number of phases), that is 16 s. *)
Theorem lost_time_is_four_phases (lane_counts : gmap string (gmap string Z)) :
  total_lost_time init = lost_time_per_phase init * 4
  /\ total_lost_time init = 16
  /\ exists r, optimize_signals init lane_counts = inr r
       /\ actual_cycle_time r - green_sum (lanes r) = lost_time_per_phase init * 4.
Proof.
  split; [reflexivity|]. split; [reflexivity|].
  exists (plan init lane_counts).
  split; [apply optimize_signals_init|].
  change (lost_time_per_phase init) with 4.
  unfold plan, actual_cycle_time, lanes. change (total_lost_time init) with 16. lia.
Qed.




(** C5.  In the answer to every request, valid or not, the green time of
    every lane is at least [min_green_time]. *)
Theorem green_time_at_least_minimum (lane_counts : gmap string (gmap string Z)) :
  exists r, optimize_signals init lane_counts = inr r
    /\ map_Forall (fun _ t => min_green_time init <= green_time t) (lanes r).
Proof.
  exists (plan init lane_counts).
  split; [apply optimize_signals_init|apply plan_green_floor].
Qed.

(** ** Zero demand *)

Lemma all_zero_two_empty_lanes : all_zero two_empty_lanes.
Proof.
  unfold all_zero, two_empty_lanes.
  repeat (apply map_Forall_insert_2; [apply map_Forall_empty|]).
  apply map_Forall_empty.
Qed.

(** C8, as stated, fails: with two lanes and no vehicle, the effective
    green is 44 s and each lane gets 11 s, a quarter of it, where the share
    by the number of lanes is 22 s. *)
Lemma zero_demand_share_not_per_lane :
  all_zero two_empty_lanes
  /\ exists r, optimize_signals init two_empty_lanes = inr r
       /\ cycle_time r - total_lost_time init = 44
       /\ green_time <$> lanes r = <["North" := 11]> (<["South" := 11]> ∅)
       /\ equal_share_per_lane r (size two_empty_lanes) = 22
       /\ ~ map_Forall
            (fun _ t => green_time t = equal_share_per_lane r (size two_empty_lanes))
            (lanes r).
Proof.
  split; [apply all_zero_two_empty_lanes|].
  exists (plan init two_empty_lanes).
  split; [apply optimize_signals_init|].
  split; [by vm_compute|]. split; [by vm_compute|]. split; [by vm_compute|].
  intros Hall.
  set (t := lane_timing init (saturation_sum init two_empty_lanes) 60 44
              (lane_datum init ∅)).
  assert (Hlk : lanes (plan init two_empty_lanes) !! "North"%string = Some t)
    by (by vm_compute).
  assert (Hg : green_time t = 11) by (by vm_compute).
  assert (He : equal_share_per_lane (plan init two_empty_lanes)
                 (size two_empty_lanes) = 22) by (by vm_compute).
  pose proof (Hall "North"%string t Hlk) as H. cbv beta in H.
  rewrite Hg, He in H. discriminate H.
Qed.

(** C8, amended.  When every count of every lane is zero, the returned
    saturation degree is 0, the returned cycle time is [min_cycle_time],
    and every lane gets the same green time: a quarter of the effective
    green (the share of one of four phases, whatever the number of lanes),
    rounded and under the minimum-green floor, which is 11 s. *)
Theorem zero_demand_plan (lane_counts : gmap string (gmap string Z)) :
  all_zero lane_counts ->
  exists r, optimize_signals init lane_counts = inr r
    /\ (saturation_degree r == 0)%Q
    /\ cycle_time r = min_cycle_time init
    /\ map_Forall
         (fun _ t =>
            green_time t
            = Z.max (min_green_time init)
                (Py.round (inject_Z (cycle_time r - total_lost_time init) / 4)%Q)
            /\ green_time t = 11)
         (lanes r).
Proof.
  intros Hz.
  pose proof (saturation_sum_all_zero init lane_counts Hz) as HY.
  exists (plan init lane_counts).
  split; [apply optimize_signals_init|].
  split; [exact HY|].
  assert (HYle : (saturation_sum init lane_counts <= 0)%Q) by lra.
  assert (Hct : cycle_time (plan init lane_counts) = min_cycle_time init)
    by (apply nominal_cycle_no_demand, HYle).
  split; [exact Hct|].
  intros lane t Ht. apply plan_lanes_lookup in Ht as (counts & _ & ->).
  rewrite Hct. unfold lane_timing, green_time.
  rewrite raw_green_no_demand by exact HYle.
  split; reflexivity.
Qed.

Lemma zero_demand_plan_witness :
  exists r, optimize_signals init two_empty_lanes = inr r
    /\ (saturation_degree r == 0)%Q
    /\ cycle_time r = 60.
Proof.
  destruct (zero_demand_plan two_empty_lanes all_zero_two_empty_lanes)
    as (r & Hr & HY & Hc & _).
  exists r. repeat split; assumption.
Defined.

(** ** Red time and lane identifiers *)

(** C9.  In the answer to every request, the yellow time of every lane is
    the constant [lost_time_per_phase] and its red time is exactly the
    nominal cycle time minus its green time minus its yellow time: an
    integer that is not clamped at zero. *)
Theorem red_time_from_nominal_cycle (lane_counts : gmap string (gmap string Z)) :
  exists r, optimize_signals init lane_counts = inr r
    /\ map_Forall
         (fun _ t =>
            yellow_time t = lost_time_per_phase init
            /\ red_time t = cycle_time r - green_time t - yellow_time t)
         (lanes r).
Proof.
  exists (plan init lane_counts).
  split; [apply optimize_signals_init|].
  intros lane t Ht. apply plan_lanes_lookup in Ht as (counts & _ & ->).
  split; reflexivity.
Qed.

(** A negative red time reaches the caller as it is: lane A gets 88 s of
    green in a nominal cycle of 60 s, and its red time is -32 s. *)
Lemma red_time_negative_surfaced :
  exists r, optimize_signals init uneven_lanes = inr r
    /\ cycle_time r = 60
    /\ green_time <$> lanes r = <["A" := 88]> (<["B" := 10]> ∅)
    /\ red_time <$> lanes r = <["A" := -32]> (<["B" := 46]> ∅).
Proof.
  exists (plan init uneven_lanes).
  split; [apply optimize_signals_init|]. by vm_compute.
Qed.

(** The red time follows the nominal cycle, not the actual one: on the
    request 7/7/7/9 the two differ, and the red time of the North lane is
    150 - 31 - 4. *)
Lemma red_time_not_from_actual_cycle :
  exists r t, optimize_signals init lanes_7_7_7_9 = inr r
    /\ lanes r !! "North"%string = Some t
    /\ red_time t = 115
    /\ red_time t <> actual_cycle_time r - green_time t - yellow_time t.
Proof.
  exists (plan init lanes_7_7_7_9).
  eexists. split; [apply optimize_signals_init|].
  split; [vm_compute; reflexivity|]. by vm_compute.
Qed.

(** C10.  In the answer to every request, the lane table has exactly the
    lane identifiers of the request. *)
Theorem lanes_same_identifiers (lane_counts : gmap string (gmap string Z)) :
  exists r, optimize_signals init lane_counts = inr r
    /\ dom (lanes r) = dom lane_counts.
Proof.
  exists (plan init lane_counts).
  split; [apply optimize_signals_init|].
  cbn. apply dom_fmap_L.
Qed.

(** * Further properties of the optimizer *)

(** ** Rounding and truncation *)

Lemma round_le (x : Q) : (inject_Z (Py.round x) <= x + (1 # 2))%Q.
Proof.
  unfold Py.round.
  pose proof (Qfloor_le x) as Hlo.
  pose proof (Qlt_floor x) as Hhi.
  rewrite inject_Z_plus in Hhi. change (inject_Z 1) with 1%Q in Hhi.
  destruct (Qcompare_spec (x - inject_Z (Qfloor x)) (1 # 2)) as [He|Hl|Hg].
  - destruct (Z.even (Qfloor x));
      [|rewrite inject_Z_plus; change (inject_Z 1) with 1%Q]; lra.
  - lra.
  - rewrite inject_Z_plus. change (inject_Z 1) with 1%Q. lra.
Qed.

Lemma round_proper (x x' : Q) : (x == x')%Q -> Py.round x = Py.round x'.
Proof.
  intros H. unfold Py.round.
  rewrite (Qfloor_comp x x' H).
  assert (Hc : ((x - inject_Z (Qfloor x') ?= 1 # 2)
                = (x' - inject_Z (Qfloor x') ?= 1 # 2))%Q)
    by (apply Qcompare_comp; [rewrite H|]; reflexivity).
  by rewrite Hc.
Qed.

Lemma round_mono (x x' : Q) : (x <= x')%Q -> Py.round x <= Py.round x'.
Proof.
  intros H.
  pose proof (Qfloor_resp_le x x' H) as Hf.
  pose proof (Qfloor_le x) as Hlo. pose proof (Qlt_floor x) as Hhi.
  pose proof (Qfloor_le x') as Hlo'. pose proof (Qlt_floor x') as Hhi'.
  rewrite inject_Z_plus in Hhi, Hhi'.
  change (inject_Z 1) with 1%Q in Hhi, Hhi'.
  unfold Py.round.
  destruct (Z.eq_dec (Qfloor x) (Qfloor x')) as [He|Hne].
  - rewrite <- He in *.
    destruct (Qcompare_spec (x - inject_Z (Qfloor x)) (1 # 2)) as [E|L|G];
      destruct (Qcompare_spec (x' - inject_Z (Qfloor x)) (1 # 2)) as [E'|L'|G'];
      try lia; try lra; destruct (Z.even (Qfloor x)); lia.
  - assert (Qfloor x + 1 <= Qfloor x') by lia.
    destruct (Qcompare_spec (x - inject_Z (Qfloor x)) (1 # 2)) as [E|L|G];
      destruct (Qcompare_spec (x' - inject_Z (Qfloor x')) (1 # 2)) as [E'|L'|G'];
      repeat match goal with |- context [Z.even ?z] => destruct (Z.even z) end; lia.
Qed.

Lemma round_le_int (x : Q) (n : Z) : (x <= inject_Z n)%Q -> Py.round x <= n.
Proof.
  intros H. pose proof (round_le x) as Hr.
  assert (Hq : (inject_Z (Py.round x) < inject_Z (n + 1))%Q)
    by (rewrite inject_Z_plus; change (inject_Z 1) with 1%Q; lra).
  rewrite <- Zlt_Qlt in Hq. lia.
Qed.

Lemma round_ge_int (x : Q) (n : Z) : (inject_Z n <= x)%Q -> n <= Py.round x.
Proof.
  intros H. pose proof (round_ge x) as Hr.
  assert (Hq : (inject_Z (n - 1) < inject_Z (Py.round x))%Q).
  { unfold Z.sub. rewrite inject_Z_plus, inject_Z_opp.
    change (inject_Z 1) with 1%Q. lra. }
  rewrite <- Zlt_Qlt in Hq. lia.
Qed.

Lemma int_floor (x : Q) : (0 <= x)%Q -> Py.int x = Qfloor x.
Proof.
  destruct x as [n d]. unfold Qle, Py.int, Qfloor. cbn. intros H.
  apply Z.quot_div_nonneg; lia.
Qed.

(** ** The request without lanes *)

Lemma int_inject_Z (n : Z) : Py.int (inject_Z n) = n.
Proof. unfold Py.int. cbn. apply Z.quot_1_r. Qed.

Lemma optimize_signals_empty (self : TrafficSignalOptimizer) :
  optimize_signals self ∅
  = inr {| cycle_time := min_cycle_time self;
           lanes := ∅;
           saturation_degree := 0%Q;
           actual_cycle_time := total_lost_time self |}.
Proof.
  unfold optimize_signals, flow_ratio_loop, green_loop.
  rewrite !map_fold_empty. cbn.
  assert (Hm : Py.min 0 0.95 = 0%Q) by reflexivity. rewrite Hm.
  destruct (Qlt_le_dec 0 0) as [Hlt|_]; [lra|]. cbn.
  rewrite map_fold_empty. cbn.
  rewrite int_inject_Z. do 2 f_equal. lia.
Qed.

(** X2.  The request without lanes is answered under every configuration:
    the cycle time is [min_cycle_time], the lane table is empty, the
    saturation degree is 0 and the actual cycle time is the total lost
    time alone. *)
Theorem empty_request_plan (self : TrafficSignalOptimizer) :
  exists r, optimize_signals self ∅ = inr r
    /\ cycle_time r = min_cycle_time self
    /\ lanes r = ∅
    /\ saturation_degree r = 0%Q
    /\ actual_cycle_time r = lost_time_per_phase self * 4.
Proof.
  eexists. split; [apply optimize_signals_empty|]. by cbn.
Qed.

(** ** Bounds on the nominal cycle *)

(** X3.  Under a configuration with a non-zero saturation flow, the
    nominal cycle time is at least [min_cycle_time] and at most the larger
    of [min_cycle_time] and [max_cycle_time]: the lower limit wins when the
    two limits are crossed. *)
Theorem cycle_time_within_limits
    (self : TrafficSignalOptimizer) (lane_counts : gmap string (gmap string Z)) :
  ~ (saturation_flow self == 0)%Q ->
  exists r, optimize_signals self lane_counts = inr r
    /\ min_cycle_time self <= cycle_time r
    /\ cycle_time r <= Z.max (min_cycle_time self) (max_cycle_time self).
Proof.
  intros Hsf. exists (plan self lane_counts).
  split; [by apply optimize_signals_plan|].
  unfold plan, cycle_time, nominal_cycle. lia.
Qed.

Lemma cycle_time_within_limits_witness :
  exists r, optimize_signals init lanes_7_7_7_9 = inr r
    /\ 60 <= cycle_time r /\ cycle_time r <= 150.
Proof.
  destruct (cycle_time_within_limits init lanes_7_7_7_9) as (r & Hr & Hlo & Hhi).
  - vm_compute. discriminate.
  - exists r. split; [exact Hr|]. split; [exact Hlo|exact Hhi].
Defined.

(** ** The nominal cycle as a function of the saturation sum *)

Lemma floor_le_iff (x : Q) (n : Z) : Qfloor x <= n <-> (x < inject_Z (n + 1))%Q.
Proof.
  pose proof (Qfloor_le x) as Hlo. pose proof (Qlt_floor x) as Hhi.
  split; intros H.
  - apply Qlt_le_trans with (inject_Z (Qfloor x + 1)); [exact Hhi|].
    rewrite <- Zle_Qle. lia.
  - assert (Hq : (inject_Z (Qfloor x) < inject_Z (n + 1))%Q)
      by (apply Qle_lt_trans with x; assumption).
    rewrite <- Zlt_Qlt in Hq. lia.
Qed.

Lemma floor_ge_iff (x : Q) (n : Z) : n <= Qfloor x <-> (inject_Z n <= x)%Q.
Proof.
  pose proof (Qfloor_le x) as Hlo. pose proof (Qlt_floor x) as Hhi.
  split; intros H.
  - apply Qle_trans with (inject_Z (Qfloor x)); [|exact Hlo].
    by rewrite <- Zle_Qle.
  - assert (Hq : (inject_Z n < inject_Z (Qfloor x + 1))%Q)
      by (apply Qle_lt_trans with x; assumption).
    rewrite <- Zlt_Qlt in Hq. lia.
Qed.

Lemma init_numerator :
  (1.5 * inject_Z (total_lost_time init) + 5 == 29)%Q.
Proof. reflexivity. Qed.

(** Webster's quotient for a clamped saturation [c] with [0 < c <= 0.95]. *)
Lemma webster_quotient (c : Q) :
  (c <= 0.95)%Q ->
  let oc := ((1.5 * inject_Z (total_lost_time init) + 5) / (1 - c))%Q in
  (oc * (1 - c) == 29)%Q /\ (0 < oc)%Q.
Proof.
  intros Hc oc. subst oc. rewrite init_numerator.
  assert (Hd : (0 < 1 - c)%Q) by lra.
  split; [field; lra|].
  apply Qlt_shift_div_l; [exact Hd|lra].
Qed.

Lemma quotient_lt (oc d k : Q) :
  (0 < d)%Q -> (oc * d == 29)%Q -> (oc < k)%Q <-> (29 < k * d)%Q.
Proof.
  intros Hd He. split; intros H.
  - assert ((oc * d < k * d)%Q) by (apply Qmult_lt_compat_r; assumption). lra.
  - destruct (Qlt_le_dec oc k) as [Hlt|Hle]; [exact Hlt|]. exfalso.
    assert ((k * d <= oc * d)%Q) by (apply Qmult_le_compat_r; lra). lra.
Qed.

Lemma quotient_ge (oc d k : Q) :
  (0 < d)%Q -> (oc * d == 29)%Q -> (k <= oc)%Q <-> (k * d <= 29)%Q.
Proof.
  intros Hd He. split; intros H.
  - assert ((k * d <= oc * d)%Q) by (apply Qmult_le_compat_r; lra). lra.
  - destruct (Qlt_le_dec oc k) as [Hlt|Hle]; [|exact Hle]. exfalso.
    assert ((oc * d < k * d)%Q) by (apply Qmult_lt_compat_r; assumption). lra.
Qed.

(** The nominal cycle of [init] when the saturation sum is positive. *)
Lemma nominal_cycle_demand (Y : Q) :
  (0 < Y)%Q ->
  nominal_cycle init Y
  = Z.max 60 (Z.min 150
      (Qfloor ((1.5 * inject_Z (total_lost_time init) + 5) / (1 - Py.min Y 0.95))%Q)).
Proof.
  intros HY. unfold nominal_cycle.
  assert (Hc : (0 < Py.min Y 0.95)%Q).
  { unfold Py.min. destruct (Qlt_le_dec 0.95 Y); lra. }
  destruct (Qlt_le_dec 0 (Py.min Y 0.95)) as [_|Hle]; [|lra].
  destruct (webster_quotient (Py.min Y 0.95) (min_le_r Y 0.95%Q)) as [_ Hpos].
  rewrite int_floor by lra. reflexivity.
Qed.

Lemma nominal_cycle_mono (Y1 Y2 : Q) :
  (Y1 <= Y2)%Q -> nominal_cycle init Y1 <= nominal_cycle init Y2.
Proof.
  intros H.
  destruct (Qlt_le_dec 0 Y1) as [H1|H1].
  - rewrite !nominal_cycle_demand by lra.
    set (c1 := Py.min Y1 0.95%Q). set (c2 := Py.min Y2 0.95%Q).
    assert (Hc : (c1 <= c2)%Q).
    { unfold c1, c2, Py.min.
      destruct (Qlt_le_dec 0.95 Y1), (Qlt_le_dec 0.95 Y2); lra. }
    destruct (webster_quotient c1 (min_le_r Y1 0.95%Q)) as [He1 Hp1].
    destruct (webster_quotient c2 (min_le_r Y2 0.95%Q)) as [He2 Hp2].
    pose proof (min_le_r Y2 0.95%Q) as Hc2. fold c2 in Hc2.
    cbv zeta in He1, He2, Hp1, Hp2.
    set (o1 := ((1.5 * inject_Z (total_lost_time init) + 5) / (1 - c1))%Q) in *.
    set (o2 := ((1.5 * inject_Z (total_lost_time init) + 5) / (1 - c2))%Q) in *.
    assert (Ho : (o1 <= o2)%Q).
    { destruct (Qlt_le_dec o2 o1) as [Hlt|Hle]; [|exact Hle].
      exfalso.
      assert (Hm : (o2 * (1 - c2) < o1 * (1 - c2))%Q)
        by (apply Qmult_lt_compat_r; lra).
      assert (Hm' : (o1 * (1 - c2) <= o1 * (1 - c1))%Q)
        by (rewrite !(Qmult_comm o1); apply Qmult_le_compat_r; lra).
      lra. }
    pose proof (Qfloor_resp_le _ _ Ho). lia.
  - rewrite (nominal_cycle_no_demand Y1 H1).
    unfold nominal_cycle. change (min_cycle_time init) with 60. lia.
Qed.

(** X4.  The nominal cycle time never decreases with the saturation
    degree: of two answers, the one with the larger saturation degree has
    the larger or equal cycle time. *)
Theorem cycle_time_monotone_in_saturation
    (lane_counts1 lane_counts2 : gmap string (gmap string Z)) (r1 r2 : Results) :
  optimize_signals init lane_counts1 = inr r1 ->
  optimize_signals init lane_counts2 = inr r2 ->
  (saturation_degree r1 <= saturation_degree r2)%Q ->
  cycle_time r1 <= cycle_time r2.
Proof.
  rewrite !optimize_signals_init. intros [= <-] [= <-] H.
  by apply nominal_cycle_mono.
Qed.

Lemma cycle_time_monotone_in_saturation_witness :
  cycle_time (plan init two_empty_lanes) <= cycle_time (plan init lanes_7_7_7_9).
Proof.
  apply (cycle_time_monotone_in_saturation two_empty_lanes lanes_7_7_7_9).
  - apply optimize_signals_init.
  - apply optimize_signals_init.
  - vm_compute. discriminate.
Defined.

(** X5.  The nominal cycle time of every answer is [min_cycle_time]
    exactly when the saturation degree is below 32/61, and
    [max_cycle_time] exactly when it is at least 121/150; between the two
    it is the integer part of [29 / (1 - Y)]. *)
Theorem cycle_time_thresholds (lane_counts : gmap string (gmap string Z)) :
  exists r, optimize_signals init lane_counts = inr r
    /\ (cycle_time r = min_cycle_time init <-> (saturation_degree r < 32 # 61)%Q)
    /\ (cycle_time r = max_cycle_time init <-> (121 # 150 <= saturation_degree r)%Q)
    /\ ((saturation_degree r < 32 # 61)%Q
        \/ (121 # 150 <= saturation_degree r)%Q
        \/ cycle_time r = Qfloor (29 / (1 - saturation_degree r))%Q).
Proof.
  exists (plan init lane_counts).
  split; [apply optimize_signals_init|].
  unfold plan, cycle_time, saturation_degree.
  set (Y := saturation_sum init lane_counts).
  change (min_cycle_time init) with 60. change (max_cycle_time init) with 150.
  destruct (Qlt_le_dec 0 Y) as [HY|HY].
  - rewrite nominal_cycle_demand by exact HY.
    destruct (webster_quotient (Py.min Y 0.95%Q) (min_le_r Y 0.95%Q)) as [He Hp].
    cbv zeta in He, Hp.
    set (oc := ((1.5 * inject_Z (total_lost_time init) + 5)
                / (1 - Py.min Y 0.95))%Q) in *.
    clearbody oc.
    assert (Hcase : ((0.95 < Y)%Q /\ Py.min Y 0.95%Q = 0.95%Q)
                    \/ ((Y <= 0.95)%Q /\ Py.min Y 0.95%Q = Y)).
    { destruct (Qlt_le_dec 0.95 Y) as [Hb|Hs];
        [left; split; [exact Hb|by apply min_lt_r]
        |right; split; [exact Hs|by apply min_le_id]]. }
    assert (Hd : (0 < 1 - Py.min Y 0.95)%Q)
      by (pose proof (min_le_r Y 0.95%Q); lra).
    assert (Hlow : Qfloor oc <= 60 <-> (Y < 32 # 61)%Q).
    { rewrite floor_le_iff. change (inject_Z (60 + 1)) with 61%Q.
      rewrite (quotient_lt oc _ 61 Hd He).
      destruct Hcase as [[Hb Hm]|[Hs Hm]]; rewrite Hm; split; intros Hx; lra. }
    assert (Hhigh : 150 <= Qfloor oc <-> (121 # 150 <= Y)%Q).
    { rewrite floor_ge_iff. change (inject_Z 150) with 150%Q.
      rewrite (quotient_ge oc _ 150 Hd He).
      destruct Hcase as [[Hb Hm]|[Hs Hm]]; rewrite Hm; split; intros Hx; lra. }
    split; [|split].
    + rewrite <- Hlow. lia.
    + rewrite <- Hhigh. lia.
    + destruct (Qlt_le_dec Y (32 # 61)) as [Ha|Ha]; [by left|].
      destruct (Qlt_le_dec Y (121 # 150)) as [Hb|Hb]; [|by right; left].
      right; right.
      destruct Hcase as [[Hbig _]|[_ Hm]]; [lra|]. rewrite Hm in He.
      assert (~ Qfloor oc <= 60) by (rewrite Hlow; lra).
      assert (~ 150 <= Qfloor oc) by (rewrite Hhigh; lra).
      assert (Hoc : (oc == 29 / (1 - Y))%Q) by (rewrite <- He; field; lra).
      rewrite <- (Qfloor_comp _ _ Hoc). lia.
  - rewrite (nominal_cycle_no_demand Y HY). change (min_cycle_time init) with 60.
    split; [split; [lra|reflexivity]|].
    split; [split; [discriminate|lra]|left; lra].
Qed.

(** ** Lane entries *)

Lemma plan_lanes_lookup_Some (self : TrafficSignalOptimizer)
    (lane_counts : gmap string (gmap string Z)) (lane : string)
    (counts : gmap string Z) :
  lane_counts !! lane = Some counts ->
  lanes (plan self lane_counts) !! lane
  = Some (lane_timing self (saturation_sum self lane_counts)
            (cycle_time (plan self lane_counts))
            (cycle_time (plan self lane_counts) - total_lost_time self)
            (lane_datum self counts)).
Proof. intros H. cbn. by rewrite lookup_fmap, H. Qed.

Lemma init_effective_green (Y : Q) :
  44 <= nominal_cycle init Y - total_lost_time init.
Proof.
  unfold nominal_cycle. change (total_lost_time init) with 16.
  change (min_cycle_time init) with 60. lia.
Qed.

Lemma round_ndigits_3_near (x : Q) :
  (x - (1 # 2000) <= Py.round_ndigits x 3)%Q
  /\ (Py.round_ndigits x 3 <= x + (1 # 2000))%Q.
Proof.
  unfold Py.round_ndigits. change (inject_Z (10 ^ Z.of_nat 3)) with 1000%Q.
  pose proof (round_ge (x * 1000)) as Hlo.
  pose proof (round_le (x * 1000)) as Hhi.
  set (R := inject_Z (Py.round (x * 1000))) in *.
  assert (He : (R / 1000 == R * (1 # 1000))%Q) by (field; lra).
  rewrite He. lra.
Qed.

(** X6.  Every lane of the request has an entry in the answer; its
    density score is the density of the counts of that lane, its flow
    ratio is within 0.0005 of that density divided by the saturation flow,
    and its green, red and yellow times add up to the nominal cycle
    time. *)
Theorem lane_entry_of_request
    (lane_counts : gmap string (gmap string Z)) (lane : string)
    (counts : gmap string Z) :
  lane_counts !! lane = Some counts ->
  exists r t, optimize_signals init lane_counts = inr r
    /\ lanes r !! lane = Some t
    /\ density_score t = calculate_traffic_density init counts
    /\ (density_score t / saturation_flow init - (1 # 2000) <= flow_ratio t)%Q
    /\ (flow_ratio t <= density_score t / saturation_flow init + (1 # 2000))%Q
    /\ green_time t + red_time t + yellow_time t = cycle_time r.
Proof.
  intros Hl. exists (plan init lane_counts). eexists.
  split; [apply optimize_signals_init|].
  split; [by apply plan_lanes_lookup_Some|].
  split; [reflexivity|].
  unfold lane_timing, flow_ratio, density_score, green_time, red_time, yellow_time.
  destruct (round_ndigits_3_near (y (lane_datum init counts))) as [Hlo Hhi].
  split; [exact Hlo|]. split; [exact Hhi|]. lia.
Qed.

Lemma lane_entry_of_request_witness :
  exists r t, optimize_signals init lanes_7_7_7_9 = inr r
    /\ lanes r !! "North"%string = Some t
    /\ green_time t + red_time t + yellow_time t = cycle_time r.
Proof.
  destruct (lane_entry_of_request lanes_7_7_7_9 "North"%string (cars 7))
    as (r & t & Hr & Ht & _ & _ & _ & Hs).
  - reflexivity.
  - exists r, t. split; [exact Hr|]. split; [exact Ht|exact Hs].
Defined.

(** ** Lanes compared *)

Lemma flow_mono (counts1 counts2 : gmap string Z) :
  (calculate_traffic_density init counts1
   <= calculate_traffic_density init counts2)%Q ->
  (y (lane_datum init counts1) <= y (lane_datum init counts2))%Q.
Proof.
  intros H. unfold lane_datum, y, Qdiv.
  apply Qmult_le_compat_r; [exact H|]. vm_compute. discriminate.
Qed.

Lemma raw_green_mono (Y : Q) (teg : Z) (d1 d2 : LaneData) :
  0 <= teg -> (y d1 <= y d2)%Q ->
  (raw_green_of Y teg d1 <= raw_green_of Y teg d2)%Q.
Proof.
  intros Hteg Hy. unfold raw_green_of.
  destruct (Qlt_le_dec 0 Y) as [HY|HY]; [|lra].
  apply Qmult_le_compat_r; [|by rewrite Zle_Qle in Hteg].
  unfold Qdiv. apply Qmult_le_compat_r; [exact Hy|].
  apply Qinv_le_0_compat. lra.
Qed.

Lemma raw_green_proper (Y : Q) (teg : Z) (d1 d2 : LaneData) :
  (y d1 == y d2)%Q -> (raw_green_of Y teg d1 == raw_green_of Y teg d2)%Q.
Proof.
  intros Hy. unfold raw_green_of.
  destruct (Qlt_le_dec 0 Y) as [HY|HY]; [|reflexivity]. by rewrite Hy.
Qed.

(** X7.  Within one answer, a lane with a larger or equal density gets a
    larger or equal green time, and a smaller or equal red time. *)
Theorem denser_lane_gets_more_green
    (lane_counts : gmap string (gmap string Z)) (lane1 lane2 : string)
    (counts1 counts2 : gmap string Z) :
  lane_counts !! lane1 = Some counts1 ->
  lane_counts !! lane2 = Some counts2 ->
  (calculate_traffic_density init counts1
   <= calculate_traffic_density init counts2)%Q ->
  exists r t1 t2, optimize_signals init lane_counts = inr r
    /\ lanes r !! lane1 = Some t1
    /\ lanes r !! lane2 = Some t2
    /\ green_time t1 <= green_time t2
    /\ red_time t2 <= red_time t1.
Proof.
  intros H1 H2 Hd. exists (plan init lane_counts). do 2 eexists.
  split; [apply optimize_signals_init|].
  split; [by apply plan_lanes_lookup_Some|].
  split; [by apply plan_lanes_lookup_Some|].
  unfold lane_timing, green_time, red_time.
  set (Y := saturation_sum init lane_counts).
  set (ct := cycle_time (plan init lane_counts)).
  assert (Hteg : 0 <= ct - total_lost_time init).
  { pose proof (init_effective_green Y). unfold ct, plan, cycle_time. fold Y. lia. }
  pose proof (round_mono _ _
    (raw_green_mono Y _ _ _ Hteg (flow_mono counts1 counts2 Hd))) as Hr.
  lia.
Qed.

Lemma denser_lane_gets_more_green_witness :
  exists r t1 t2, optimize_signals init lanes_7_7_7_9 = inr r
    /\ lanes r !! "North"%string = Some t1
    /\ lanes r !! "West"%string = Some t2
    /\ green_time t1 <= green_time t2.
Proof.
  destruct (denser_lane_gets_more_green lanes_7_7_7_9
              "North"%string "West"%string (cars 7) (cars 9))
    as (r & t1 & t2 & Hr & H1 & H2 & Hg & _).
  - reflexivity.
  - reflexivity.
  - vm_compute. discriminate.
  - exists r, t1, t2. repeat (split; [assumption|]). exact Hg.
Defined.

(** X8.  Within one answer, two lanes of equal density get the same
    green, red and yellow times and the same flow ratio. *)
Theorem equal_density_equal_timing
    (lane_counts : gmap string (gmap string Z)) (lane1 lane2 : string)
    (counts1 counts2 : gmap string Z) :
  lane_counts !! lane1 = Some counts1 ->
  lane_counts !! lane2 = Some counts2 ->
  (calculate_traffic_density init counts1
   == calculate_traffic_density init counts2)%Q ->
  exists r t1 t2, optimize_signals init lane_counts = inr r
    /\ lanes r !! lane1 = Some t1
    /\ lanes r !! lane2 = Some t2
    /\ green_time t1 = green_time t2
    /\ red_time t1 = red_time t2
    /\ yellow_time t1 = yellow_time t2
    /\ flow_ratio t1 = flow_ratio t2.
Proof.
  intros H1 H2 Hd. exists (plan init lane_counts). do 2 eexists.
  split; [apply optimize_signals_init|].
  split; [by apply plan_lanes_lookup_Some|].
  split; [by apply plan_lanes_lookup_Some|].
  unfold lane_timing, green_time, red_time, yellow_time, flow_ratio.
  assert (Hy : (y (lane_datum init counts1) == y (lane_datum init counts2))%Q).
  { unfold lane_datum, y. by rewrite Hd. }
  rewrite (round_proper _ _ (raw_green_proper _ _ _ _ Hy)).
  split; [reflexivity|]. split; [reflexivity|]. split; [reflexivity|].
  unfold Py.round_ndigits.
  assert (Hs : (y (lane_datum init counts1) * inject_Z (10 ^ Z.of_nat 3)
                == y (lane_datum init counts2) * inject_Z (10 ^ Z.of_nat 3))%Q)
    by (by rewrite Hy).
  by rewrite (round_proper _ _ Hs).
Qed.

Lemma equal_density_equal_timing_witness :
  exists r t1 t2, optimize_signals init lanes_7_7_7_9 = inr r
    /\ lanes r !! "North"%string = Some t1
    /\ lanes r !! "South"%string = Some t2
    /\ green_time t1 = green_time t2.
Proof.
  destruct (equal_density_equal_timing lanes_7_7_7_9
              "North"%string "South"%string (cars 7) (cars 7))
    as (r & t1 & t2 & Hr & H1 & H2 & Hg & _).
  - reflexivity.
  - reflexivity.
  - reflexivity.
  - exists r, t1, t2. repeat (split; [assumption|]). exact Hg.
Defined.

(** ** Valid requests *)

Lemma init_weight_pos (vehicle_type : string) :
  (0 < weight_of init vehicle_type)%Q.
Proof.
  unfold weight_of, Py.get, init, weights.
  repeat (rewrite lookup_insert; case_decide; [by vm_compute|]).
  rewrite lookup_empty. by vm_compute.
Qed.

Lemma density_nonneg (counts : gmap string Z) :
  valid_counts counts -> (0 <= calculate_traffic_density init counts)%Q.
Proof.
  unfold calculate_traffic_density, valid_counts.
  induction counts as [|k c m Hnone Hfirst IH] using map_first_key_ind; intros Hv.
  - rewrite map_fold_empty. lra.
  - rewrite map_fold_insert_first_key by done.
    apply map_Forall_insert in Hv as [Hc Hm]; [|done].
    specialize (IH Hm). cbv beta zeta.
    pose proof (init_weight_pos k) as Hw. unfold weight_of in Hw.
    assert (H : (0 <= inject_Z c * Py.get (weights init) k 1.0)%Q)
      by (apply Qmult_le_0_compat; [by rewrite Zle_Qle in Hc|lra]).
    revert IH H. generalize (inject_Z c * Py.get (weights init) k 1.0)%Q.
    match goal with |- forall q, (0 <= ?s)%Q -> _ => generalize s end.
    intros s w Hs Hw'. lra.
Qed.

Lemma flow_nonneg (counts : gmap string Z) :
  valid_counts counts -> (0 <= y (lane_datum init counts))%Q.
Proof.
  intros Hv. unfold lane_datum, y.
  apply Qle_shift_div_l; [by vm_compute|].
  pose proof (density_nonneg counts Hv). lra.
Qed.

Lemma flow_le_saturation_sum (lane_counts : gmap string (gmap string Z)) :
  valid_input lane_counts ->
  (0 <= saturation_sum init lane_counts)%Q
  /\ forall lane counts, lane_counts !! lane = Some counts ->
       (y (lane_datum init counts) <= saturation_sum init lane_counts)%Q.
Proof.
  unfold saturation_sum, valid_input.
  induction lane_counts as [|k c m Hnone Hfirst IH] using map_first_key_ind;
    intros Hv.
  - rewrite map_fold_empty. split; [lra|]. intros lane counts H.
    by rewrite lookup_empty in H.
  - rewrite map_fold_insert_first_key by done.
    apply map_Forall_insert in Hv as [Hc Hm]; [|done].
    destruct (IH Hm) as [H0 Hle].
    pose proof (flow_nonneg c Hc) as Hy.
    split; [lra|].
    intros lane counts Hl.
    destruct (decide (k = lane)) as [->|Hne].
    + rewrite lookup_insert_eq in Hl. injection Hl as <-. lra.
    + rewrite lookup_insert_ne in Hl by done.
      specialize (Hle lane counts Hl). lra.
Qed.

(** With non-negative flows, no lane is offered more than the effective
    green before rounding. *)
Lemma raw_green_le_effective (Y : Q) (teg : Z) (d : LaneData) :
  0 <= teg -> (0 <= y d)%Q -> (y d <= Y)%Q ->
  (0 <= raw_green_of Y teg d)%Q /\ (raw_green_of Y teg d <= inject_Z teg)%Q.
Proof.
  intros Hteg H0 Hle. rewrite Zle_Qle in Hteg. change (inject_Z 0) with 0%Q in Hteg.
  unfold raw_green_of.
  destruct (Qlt_le_dec 0 Y) as [HY|HY].
  2:{ assert (He : (inject_Z teg / 4 == inject_Z teg * (1 # 4))%Q) by (field; lra).
      rewrite He. split; lra. }
  assert (Hq0 : (0 <= y d / Y)%Q) by (apply Qle_shift_div_l; lra).
  assert (Hq1 : (y d / Y <= 1)%Q) by (apply Qle_shift_div_r; lra).
  split.
  - by apply Qmult_le_0_compat.
  - apply Qle_trans with (1 * inject_Z teg)%Q; [|lra].
    by apply Qmult_le_compat_r.
Qed.

Lemma valid_plan_lane (lane_counts : gmap string (gmap string Z))
    (lane : string) (counts : gmap string Z) :
  valid_input lane_counts ->
  lane_counts !! lane = Some counts ->
  let r := plan init lane_counts in
  let t := lane_timing init (saturation_sum init lane_counts) (cycle_time r)
             (cycle_time r - total_lost_time init) (lane_datum init counts) in
  green_time t <= cycle_time r - total_lost_time init /\ 12 <= red_time t.
Proof.
  intros Hv Hl. cbv zeta.
  destruct (flow_le_saturation_sum lane_counts Hv) as [HY Hle].
  specialize (Hle lane counts Hl).
  pose proof (flow_nonneg counts (Hv lane counts Hl)) as H0.
  set (Y := saturation_sum init lane_counts) in *.
  pose proof (init_effective_green Y) as Hteg.
  unfold plan, cycle_time. fold Y.
  set (ct := nominal_cycle init Y) in *.
  destruct (raw_green_le_effective Y (ct - total_lost_time init)
              (lane_datum init counts)) as [_ Hraw]; [lia|exact H0|exact Hle|].
  apply round_le_int in Hraw.
  unfold lane_timing, green_time, red_time.
  change (min_green_time init) with 10. change (lost_time_per_phase init) with 4.
  change (total_lost_time init) with 16 in *. lia.
Qed.

(** X9.  On a request whose counts are all non-negative, no lane is given
    more green than the effective green (nominal cycle less total lost
    time), and every red time is at least 12 s: a red time is never
    negative on a valid request. *)
Theorem valid_request_red_time_positive
    (lane_counts : gmap string (gmap string Z)) :
  valid_input lane_counts ->
  exists r, optimize_signals init lane_counts = inr r
    /\ map_Forall
         (fun _ t =>
            green_time t <= cycle_time r - total_lost_time init
            /\ 12 <= red_time t)
         (lanes r).
Proof.
  intros Hv. exists (plan init lane_counts).
  split; [apply optimize_signals_init|].
  intros lane t Ht. apply plan_lanes_lookup in Ht as (counts & Hl & ->).
  exact (valid_plan_lane lane_counts lane counts Hv Hl).
Qed.

Lemma valid_request_red_time_positive_witness :
  exists r, optimize_signals init lanes_7_7_7_9 = inr r
    /\ map_Forall (fun _ t => 12 <= red_time t) (lanes r).
Proof.
  destruct (valid_request_red_time_positive lanes_7_7_7_9) as (r & Hr & Hall).
  - apply valid_four_lanes_cars; lia.
  - exists r. split; [exact Hr|].
    intros lane t Ht. by destruct (Hall lane t Ht).
Defined.

(** X10.  On a request whose counts are all non-negative, the saturation
    degree, every density score and every flow ratio of the answer are
    non-negative. *)
Theorem valid_request_nonnegative_diagnostics
    (lane_counts : gmap string (gmap string Z)) :
  valid_input lane_counts ->
  exists r, optimize_signals init lane_counts = inr r
    /\ (0 <= saturation_degree r)%Q
    /\ map_Forall
         (fun _ t => (0 <= density_score t)%Q /\ (0 <= flow_ratio t)%Q)
         (lanes r).
Proof.
  intros Hv. exists (plan init lane_counts).
  split; [apply optimize_signals_init|].
  destruct (flow_le_saturation_sum lane_counts Hv) as [HY _].
  split; [exact HY|].
  intros lane t Ht. apply plan_lanes_lookup in Ht as (counts & Hl & ->).
  pose proof (Hv lane counts Hl) as Hc.
  split; [exact (density_nonneg counts Hc)|].
  unfold lane_timing, flow_ratio, Py.round_ndigits.
  change (inject_Z (10 ^ Z.of_nat 3)) with 1000%Q.
  pose proof (flow_nonneg counts Hc) as H0.
  assert (Hr : 0 <= Py.round (y (lane_datum init counts) * 1000)).
  { apply round_ge_int. change (inject_Z 0) with 0%Q.
    apply Qmult_le_0_compat; lra. }
  rewrite Zle_Qle in Hr. change (inject_Z 0) with 0%Q in Hr.
  apply Qle_shift_div_l; lra.
Qed.

Lemma valid_request_nonnegative_diagnostics_witness :
  exists r, optimize_signals init lanes_7_7_7_9 = inr r
    /\ (0 <= saturation_degree r)%Q.
Proof.
  destruct (valid_request_nonnegative_diagnostics lanes_7_7_7_9)
    as (r & Hr & HY & _).
  - apply valid_four_lanes_cars; lia.
  - exists r. split; [exact Hr|exact HY].
Defined.

(** ** Density as a weighted sum *)

Lemma density_insert (self : TrafficSignalOptimizer)
    (counts : gmap string Z) (k : string) (n : Z) :
  counts !! k = None ->
  (calculate_traffic_density self (<[k := n]> counts)
   == calculate_traffic_density self counts + inject_Z n * weight_of self k)%Q.
Proof.
  intros Hk. unfold calculate_traffic_density, weight_of.
  set (f := fun (vehicle_type : string) (count : Z) (density : Q) =>
              (density + inject_Z count * Py.get (weights self) vehicle_type 1.0)%Q).
  change (map_fold f 0 (<[k := n]> counts) == f k n (map_fold f 0 counts))%Q.
  apply (map_fold_insert Qeq f); [| |exact Hk]; unfold f.
  - intros j z a a' Ha. cbv beta zeta. by rewrite Ha.
  - intros j1 j2 z1 z2 a _ _ _. cbv beta zeta.
    generalize (inject_Z z1 * Py.get (weights self) j1 1.0)%Q.
    generalize (inject_Z z2 * Py.get (weights self) j2 1.0)%Q.
    intros q1 q2. ring.
Qed.


(** X12.  Adding a category that the count table does not have yet, with
    [n] vehicles, raises the density by [n] times the configured weight of
    the category, or by [n] times 1.0 when the category has no configured
    weight. *)
Theorem density_of_added_category (self : TrafficSignalOptimizer)
    (counts : gmap string Z) (vehicle_type : string) (n : Z) :
  counts !! vehicle_type = None ->
  (calculate_traffic_density self (<[vehicle_type := n]> counts)
   == calculate_traffic_density self counts
      + inject_Z n * default 1.0%Q (weights self !! vehicle_type))%Q.
Proof. intros H. by apply density_insert. Qed.

Lemma density_of_added_category_witness :
  (calculate_traffic_density init (<["bicycle" := 4%Z]> (cars 2))
   == calculate_traffic_density init (cars 2) + inject_Z 4 * 1.0)%Q.
Proof.
  apply (density_of_added_category init (cars 2) "bicycle" 4).
  reflexivity.
Defined.





(** * Properties of the vehicle counter *)

Section CounterFacts.

Context (V : Counter.Vision) (thr : Q).

Local Notation "'self'" := (Counter.init thr).

Lemma bind_inr {A B : Type} (a : A) (k : A -> Counter.py B) :
  ((inr a : Counter.py A) ≫= k) = k a.
Proof. reflexivity. Qed.

Lemma getitem_name (c : Z) (name : string) :
  Counter.class_names self !! c = Some name ->
  Counter.getitem (Counter.class_names self) c = inr name.
Proof. intros H. unfold Counter.getitem. by rewrite H. Qed.

Lemma for_each_ok {S B : Type} (body : S -> B -> Counter.py S) (g : S -> B -> S)
    (s : S) (l : list B) :
  (forall s x, body s x = inr (g s x)) ->
  Counter.for_each body s l = inr (foldl g s l).
Proof.
  intros Hb. revert s. induction l as [|x l IH]; intros s; cbn.
  - reflexivity.
  - rewrite Hb. cbn. apply IH.
Qed.

Lemma init_class_name (c : Z) :
  c ∈ Counter.vehicle_classes self ->
  exists name, Counter.class_names self !! c = Some name
               /\ Counter.class_of_name name = Some c.
Proof.
  cbn. rewrite !elem_of_cons, elem_of_nil.
  intros [->|[->|[->|[->|[]]]]]; eexists; split; reflexivity.
Qed.

Lemma class_of_name_inv (name : string) (c : Z) :
  Counter.class_of_name name = Some c ->
  Counter.class_names self !! c = Some name.
Proof.
  unfold Counter.class_of_name.
  repeat case_decide; intros [= <-]; subst; reflexivity.
Qed.

Lemma counted_in_classes (box : Counter.Box V) :
  Counter.counted V self box = true ->
  Counter.cls V box ∈ Counter.vehicle_classes self.
Proof.
  unfold Counter.counted. intros H. apply andb_true_iff in H as [H _].
  by apply bool_decide_eq_true in H.
Qed.

Lemma tally_box_ok (st : Counter.Image V * gmap Z Z * Z) (box : Counter.Box V) :
  Counter.tally_box V self st box = inr (Counter.tally_pure V self st box).
Proof.
  destruct st as [[ann counts] total].
  unfold Counter.tally_box, Counter.tally_pure.
  destruct (Counter.counted V self box) eqn:Hc; [|reflexivity].
  destruct (init_class_name _ (counted_in_classes box Hc)) as (name & Hn & _).
  rewrite (getitem_name _ name Hn), bind_inr. by rewrite Hn.
Qed.

Lemma tally_loop_ok (st : Counter.Image V * gmap Z Z * Z)
    (results : list (list (Counter.Box V))) :
  Counter.for_each (fun st boxes => Counter.for_each (Counter.tally_box V self) st boxes)
                   st results
  = inr (foldl (Counter.tally_pure V self) st (concat results)).
Proof.
  revert st. induction results as [|boxes results IH]; intros st; cbn.
  - reflexivity.
  - rewrite (for_each_ok _ (Counter.tally_pure V self)) by apply tally_box_ok.
    cbn. rewrite IH, foldl_app. reflexivity.
Qed.

(** *** Counting *)

Lemma class_count_cons (box : Counter.Box V) (boxes : list (Counter.Box V)) (c : Z) :
  Counter.class_count V self (box :: boxes) c
  = (if decide (Counter.counted V self box = true /\ Counter.cls V box = c)
     then 1 else 0) + Counter.class_count V self boxes c.
Proof.
  unfold Counter.class_count. rewrite filter_cons.
  case_decide; cbn [length]; lia.
Qed.

Lemma counted_total_cons (box : Counter.Box V) (boxes : list (Counter.Box V)) :
  Counter.counted_total V self (box :: boxes)
  = (if Counter.counted V self box then 1 else 0)
    + Counter.counted_total V self boxes.
Proof.
  unfold Counter.counted_total. rewrite filter_cons.
  destruct (Counter.counted V self box); case_decide; try done; cbn [length]; lia.
Qed.

Lemma class_count_nonneg (boxes : list (Counter.Box V)) (c : Z) :
  0 <= Counter.class_count V self boxes c.
Proof. unfold Counter.class_count. lia. Qed.

Lemma class_count_pos_in (boxes : list (Counter.Box V)) (c : Z) :
  0 < Counter.class_count V self boxes c -> c ∈ Counter.vehicle_classes self.
Proof.
  induction boxes as [|box boxes IH].
  - unfold Counter.class_count. cbn. lia.
  - rewrite class_count_cons. case_decide as Hd.
    + intros _. destruct Hd as [Hc <-]. by apply counted_in_classes.
    + intros H. apply IH. lia.
Qed.

Lemma table_sum_empty {K : Type} `{Countable K} :
  Counter.table_sum (∅ : gmap K Z) = 0.
Proof. unfold Counter.table_sum. by rewrite map_fold_empty. Qed.

Lemma table_sum_insert_None {K : Type} `{Countable K}
    (m : gmap K Z) (k : K) (v : Z) :
  m !! k = None -> Counter.table_sum (<[k := v]> m) = Counter.table_sum m + v.
Proof.
  intros Hk. unfold Counter.table_sum.
  rewrite map_fold_insert_L; [reflexivity| |exact Hk].
  intros. lia.
Qed.

Lemma table_sum_insert {K : Type} `{Countable K} (m : gmap K Z) (k : K) (v : Z) :
  Counter.table_sum (<[k := v]> m)
  = Counter.table_sum m - default 0 (m !! k) + v.
Proof.
  destruct (m !! k) as [w|] eqn:Hk; cbn.
  - rewrite <- (insert_delete_eq m k v).
    rewrite <- (insert_delete_id m k w Hk) at 2.
    rewrite !table_sum_insert_None by apply lookup_delete_eq. lia.
  - rewrite table_sum_insert_None by exact Hk. lia.
Qed.

Lemma table_sum_lower {K : Type} `{Countable K} (m : gmap K Z) :
  map_Forall (fun _ v => 1 <= v) m -> Z.of_nat (size m) <= Counter.table_sum m.
Proof.
  induction m as [|k v m Hk Hfirst IH] using map_first_key_ind; intros Hall.
  - unfold Counter.table_sum. rewrite map_fold_empty, map_size_empty. lia.
  - apply map_Forall_insert in Hall as [Hv Hm]; [|done].
    rewrite table_sum_insert_None, map_size_insert_None by done.
    specialize (IH Hm). lia.
Qed.

(** The state after the loop over the boxes. *)
Lemma tally_state (boxes : list (Counter.Box V))
    (ann : Counter.Image V) (counts : gmap Z Z) (total : Z) :
  exists ann' counts',
    foldl (Counter.tally_pure V self) (ann, counts, total) boxes
    = (ann', counts', total + Counter.counted_total V self boxes)
    /\ (forall c, counts' !! c
                  = if decide (Counter.class_count V self boxes c = 0)
                    then counts !! c
                    else Some (default 0 (counts !! c)
                               + Counter.class_count V self boxes c))
    /\ Counter.table_sum counts'
       = Counter.table_sum counts + Counter.counted_total V self boxes.
Proof.
  revert ann counts total.
  induction boxes as [|box boxes IH]; intros ann counts total.
  - exists ann, counts. cbn. split; [f_equal; unfold Counter.counted_total; cbn; lia|].
    split; [intros c; by case_decide|].
    unfold Counter.counted_total. cbn. lia.
  - cbn [foldl]. unfold Counter.tally_pure at 2.
    destruct (Counter.counted V self box) eqn:Hc.
    + destruct (IH (Counter.draw_detection V ann box
                      (default ""%string
                         (Counter.class_names self !! Counter.cls V box)))
                   (<[Counter.cls V box
                      := default 0 (counts !! Counter.cls V box) + 1]> counts)
                   (total + 1))
        as (ann' & counts' & Hf & Hlk & Hsum).
      exists ann', counts'. rewrite Hf.
      rewrite counted_total_cons, Hc.
      split; [f_equal; lia|]. split.
      * intros c. rewrite Hlk, class_count_cons.
        pose proof (class_count_nonneg boxes c).
        destruct (decide (Counter.cls V box = c)) as [<-|Hne].
        -- destruct (decide (Counter.counted V self box = true
                              /\ Counter.cls V box = Counter.cls V box))
             as [_|Hn]; [|by destruct Hn].
           rewrite lookup_insert_eq. cbn [default].
           repeat case_decide; try lia; apply (f_equal Some); unfold id; lia.
        -- rewrite lookup_insert_ne by done.
           destruct (decide (Counter.counted V self box = true
                              /\ Counter.cls V box = c))
             as [[_ ?]|_]; [done|].
           repeat case_decide; try lia; reflexivity.
      * rewrite Hsum, table_sum_insert. lia.
    + destruct (IH ann counts total) as (ann' & counts' & Hf & Hlk & Hsum).
      exists ann', counts'. rewrite Hf.
      rewrite counted_total_cons, Hc.
      split; [f_equal; lia|]. split.
      * intros c. rewrite Hlk, class_count_cons.
        destruct (decide (Counter.counted V self box = true
                           /\ Counter.cls V box = c))
          as [[? _]|_]; [congruence|].
        reflexivity.
      * rewrite Hsum. lia.
Qed.

(** *** From class numbers to names *)

Lemma by_class_of_ok (counts : gmap Z Z) :
  (forall c n, counts !! c = Some n -> c ∈ Counter.vehicle_classes self) ->
  exists d, Counter.by_class_of self counts = inr d
    /\ (forall name, d !! name
                     = match Counter.class_of_name name with
                       | Some c => counts !! c
                       | None => None
                       end)
    /\ Counter.table_sum d = Counter.table_sum counts.
Proof.
  unfold Counter.by_class_of.
  induction counts as [|c n m Hnone Hfirst IH] using map_first_key_ind; intros Hk.
  - exists ∅. rewrite map_fold_empty. split; [reflexivity|].
    split; [|by rewrite !table_sum_empty].
    intros name. rewrite lookup_empty. by destruct (Counter.class_of_name name).
  - rewrite map_fold_insert_first_key by done.
    destruct IH as (d & Hd & Hlk & Hsum).
    { intros c' n' H'. apply (Hk c' n').
      rewrite lookup_insert_ne; [done|]. intros ->. congruence. }
    rewrite Hd, bind_inr.
    destruct (init_class_name c) as (nm & Hnm & Hinv).
    { apply (Hk c n). by rewrite lookup_insert_eq. }
    rewrite (getitem_name c nm Hnm), bind_inr.
    exists (<[nm := n]> d). split; [reflexivity|].
    assert (Hdn : d !! nm = None) by (by rewrite Hlk, Hinv).
    split.
    + intros name. destruct (decide (nm = name)) as [<-|Hne].
      * by rewrite lookup_insert_eq, Hinv, lookup_insert_eq.
      * rewrite lookup_insert_ne by done. rewrite Hlk.
        destruct (Counter.class_of_name name) as [c'|] eqn:Hc'; [|reflexivity].
        rewrite lookup_insert_ne; [reflexivity|].
        intros ->. apply class_of_name_inv in Hc'. congruence.
    + rewrite !table_sum_insert_None by done. lia.
Qed.

Lemma summary_lines_ok (counts : gmap Z Z) :
  (forall c n, counts !! c = Some n -> c ∈ Counter.vehicle_classes self) ->
  exists lines, Counter.summary_lines self counts = inr lines.
Proof.
  unfold Counter.summary_lines.
  induction counts as [|c n m Hnone Hfirst IH] using map_first_key_ind; intros Hk.
  - exists []. by rewrite map_fold_empty.
  - rewrite map_fold_insert_first_key by done.
    destruct IH as (lines & Hl).
    { intros c' n' H'. apply (Hk c' n').
      rewrite lookup_insert_ne; [done|]. intros ->. congruence. }
    rewrite Hl, bind_inr.
    destruct (init_class_name c) as (nm & Hnm & _).
    { apply (Hk c n). by rewrite lookup_insert_eq. }
    rewrite (getitem_name c nm Hnm), bind_inr. eauto.
Qed.

Lemma process_image_array (image : Counter.Image V) :
  exists annotated cd,
    Counter.process_image V self (Counter.Array image) = inr (annotated, cd)
    /\ Counter.total cd
       = Counter.counted_total V self (concat (Counter.detect V image))
    /\ (forall name,
          Counter.by_class cd !! name
          = Counter.name_count V self (concat (Counter.detect V image)) name)
    /\ Counter.table_sum (Counter.by_class cd) = Counter.total cd.
Proof.
  unfold Counter.process_image. cbn.
  rewrite tally_loop_ok.
  destruct (tally_state (concat (Counter.detect V image))
              (Counter.copy V image) ∅ 0) as (ann & counts & Hf & Hlk & Hsum).
  rewrite Hf. cbn.
  assert (Hkeys : forall c n, counts !! c = Some n ->
                              c ∈ Counter.vehicle_classes self).
  { intros c n Hc. rewrite Hlk, lookup_empty in Hc.
    case_decide; [discriminate|].
    apply (class_count_pos_in (concat (Counter.detect V image))).
    pose proof (class_count_nonneg (concat (Counter.detect V image)) c). lia. }
  destruct (summary_lines_ok counts Hkeys) as (lines & Hl).
  destruct (by_class_of_ok counts Hkeys) as (d & Hd & Hdl & Hds).
  rewrite Hl. cbn. rewrite Hd. cbn.
  do 2 eexists. split; [reflexivity|]. cbn.
  split; [lia|]. split.
  - intros name. rewrite Hdl. unfold Counter.name_count.
    destruct (Counter.class_of_name name) as [c|]; [|reflexivity].
    rewrite Hlk, lookup_empty. cbn. case_decide; [reflexivity|f_equal; lia].
  - rewrite Hds, Hsum, table_sum_empty. lia.
Qed.

End CounterFacts.

(** ** What [process_image] returns *)

(** X15.  On an image array, [process_image] returns: the total is the
    number of boxes whose class is a vehicle class and whose confidence is
    above the threshold, and the entry of each name in [by_class] is the
    number of such boxes of its class, with no entry for a class without
    such a box and none for any other name. *)
Theorem process_image_counts (V : Counter.Vision) (thr : Q)
    (image : Counter.Image V) :
  exists annotated cd,
    Counter.process_image V (Counter.init thr) (Counter.Array image)
    = inr (annotated, cd)
    /\ Counter.total cd
       = Counter.counted_total V (Counter.init thr)
           (concat (Counter.detect V image))
    /\ forall name,
         Counter.by_class cd !! name
         = Counter.name_count V (Counter.init thr)
             (concat (Counter.detect V image)) name.
Proof.
  destruct (process_image_array V thr image) as (a & cd & Hp & Ht & Hn & _).
  exists a, cd. split; [exact Hp|]. split; [exact Ht|exact Hn].
Qed.

Lemma name_count_Some (V : Counter.Vision) (self : Counter.VehicleCounter)
    (boxes : list (Counter.Box V)) (name : string) (n : Z) :
  Counter.name_count V self boxes name = Some n ->
  1 <= n /\ name ∈ ["car"; "motorcycle"; "bus"; "truck"]%string.
Proof.
  unfold Counter.name_count, Counter.class_of_name.
  repeat case_decide; try discriminate; intros [= <-]; subst;
    (split; [unfold Counter.class_count in *; lia|set_solver]).
Qed.

(** X16.  In the counts that [process_image] returns, the total is the sum
    of the entries of [by_class]; every entry is at least 1 and its name is
    one of car, motorcycle, bus and truck. *)
Theorem process_image_total_is_sum (V : Counter.Vision) (thr : Q)
    (image : Counter.Image V) :
  exists annotated cd,
    Counter.process_image V (Counter.init thr) (Counter.Array image)
    = inr (annotated, cd)
    /\ Counter.total cd = Counter.table_sum (Counter.by_class cd)
    /\ map_Forall
         (fun name n =>
            1 <= n /\ name ∈ ["car"; "motorcycle"; "bus"; "truck"]%string)
         (Counter.by_class cd).
Proof.
  destruct (process_image_array V thr image) as (a & cd & Hp & _ & Hn & Hs).
  exists a, cd. split; [exact Hp|]. split; [by rewrite Hs|].
  intros name n Hl. rewrite Hn in Hl. by apply name_count_Some in Hl.
Qed.

(** Given a path, [process_image] raises [ValueError] when the image
    cannot be read, before any detection, and otherwise answers as for the
    image read; given [None] it raises [AttributeError]. *)
Lemma process_image_input (V : Counter.Vision) (self : Counter.VehicleCounter)
    (p : string) :
  Counter.process_image V self (Counter.Path p)
  = match Counter.imread V p with
    | None => inl (Counter.ValueError ("Could not read image at " +:+ p))
    | Some image => Counter.process_image V self (Counter.Array image)
    end
  /\ Counter.process_image V self Counter.NoneValue = inl Counter.AttributeError.
Proof.
  unfold Counter.process_image. split; [|reflexivity].
  by destruct (Counter.imread V p).
Qed.

(** ** The confidence threshold *)

Lemma filter_length_mono {A : Type} (P1 P2 : A -> Prop)
    `{!forall x, Decision (P1 x)} `{!forall x, Decision (P2 x)} (l : list A) :
  (forall x, P1 x -> P2 x) ->
  (length (filter P1 l) <= length (filter P2 l))%nat.
Proof.
  intros Himp. induction l as [|x l IH]; [done|].
  rewrite !filter_cons.
  destruct (decide (P1 x)) as [H1|H1]; destruct (decide (P2 x)) as [H2|H2];
    cbn [length]; try lia.
  exfalso. by apply H2, Himp.
Qed.

Lemma counted_threshold (V : Counter.Vision) (thr1 thr2 : Q) (box : Counter.Box V) :
  (thr1 <= thr2)%Q ->
  Counter.counted V (Counter.init thr2) box = true ->
  Counter.counted V (Counter.init thr1) box = true.
Proof.
  intros Hle. unfold Counter.counted. cbn.
  rewrite !andb_true_iff. intros [Hc Hconf]. split; [exact Hc|].
  destruct (Qlt_le_dec thr2 (Counter.conf V box)); [|discriminate].
  destruct (Qlt_le_dec thr1 (Counter.conf V box)); [reflexivity|lra].
Qed.

(** X17.  Raising the confidence threshold never raises a count: on the
    same image, the total and the entry of every name under the larger
    threshold are at most those under the smaller one (an absent entry
    counting as 0). *)
Theorem higher_threshold_counts_less (V : Counter.Vision) (thr1 thr2 : Q)
    (image : Counter.Image V)
    (annotated1 annotated2 : Counter.Image V) (cd1 cd2 : Counter.CountsDict) :
  (thr1 <= thr2)%Q ->
  Counter.process_image V (Counter.init thr1) (Counter.Array image)
  = inr (annotated1, cd1) ->
  Counter.process_image V (Counter.init thr2) (Counter.Array image)
  = inr (annotated2, cd2) ->
  Counter.total cd2 <= Counter.total cd1
  /\ forall name,
       default 0 (Counter.by_class cd2 !! name)
       <= default 0 (Counter.by_class cd1 !! name).
Proof.
  intros Hle H1 H2.
  destruct (process_image_array V thr1 image) as (a1 & c1 & Hp1 & Ht1 & Hn1 & _).
  destruct (process_image_array V thr2 image) as (a2 & c2 & Hp2 & Ht2 & Hn2 & _).
  rewrite H1 in Hp1. rewrite H2 in Hp2.
  injection Hp1 as _ <-. injection Hp2 as _ <-.
  set (boxes := concat (Counter.detect V image)) in *.
  split.
  - rewrite Ht1, Ht2. unfold Counter.counted_total.
    apply inj_le, filter_length_mono. intros box. by apply counted_threshold.
  - intros name. rewrite Hn1, Hn2. unfold Counter.name_count.
    destruct (Counter.class_of_name name) as [c|]; [|done].
    assert (Hc : Counter.class_count V (Counter.init thr2) boxes c
                 <= Counter.class_count V (Counter.init thr1) boxes c).
    { unfold Counter.class_count. apply inj_le, filter_length_mono.
      intros box [Hb Hcls]. split; [by apply (counted_threshold V thr1 thr2)|done]. }
    assert (0 <= Counter.class_count V (Counter.init thr2) boxes c)
      by (unfold Counter.class_count; lia).
    repeat case_decide; cbn; lia.
Qed.

Lemma higher_threshold_counts_less_witness :
  exists a1 cd1 a2 cd2,
    Counter.process_image list_vision (Counter.init 0.2) (Counter.Array sample_image)
    = inr (a1, cd1)
    /\ Counter.process_image list_vision (Counter.init 0.3) (Counter.Array sample_image)
       = inr (a2, cd2)
    /\ Counter.total cd1 = 4 /\ Counter.total cd2 = 2
    /\ Counter.total cd2 <= Counter.total cd1.
Proof.
  assert (H1 : Counter.process_image list_vision (Counter.init 0.2)
                 (Counter.Array sample_image)
               = inr (sample_image,
                      {| Counter.total := 4;
                         Counter.by_class :=
                           <["car" := 2]> (<["truck" := 1]>
                             (<["motorcycle" := 1]> ∅)) |}))
    by (by vm_compute).
  assert (H2 : Counter.process_image list_vision (Counter.init 0.3)
                 (Counter.Array sample_image)
               = inr (sample_image,
                      {| Counter.total := 2;
                         Counter.by_class :=
                           <["car" := 1]> (<["truck" := 1]> ∅) |}))
    by (by vm_compute).
  do 4 eexists. split; [exact H1|]. split; [exact H2|].
  split; [reflexivity|]. split; [reflexivity|].
  refine (proj1 (higher_threshold_counts_less list_vision 0.2 0.3 sample_image
                   _ _ _ _ _ H1 H2)).
  by vm_compute.
Defined.

(** * Properties of the application script *)

(** X18.  When the uploader of some lane holds no file, the script shows
    the message asking for all four images, processes no image and raises
    nothing. *)
Theorem missing_upload_shows_message (V : Counter.Vision)
    (counter : Counter.VehicleCounter) (optimizer : TrafficSignalOptimizer)
    (files : gmap string (option (App.upload V))) (lane : string) :
  files !! lane = Some None ->
  App.analyze V counter optimizer files
  = inr (App.ErrorMessage "Please upload images for all 4 lanes to proceed.").
Proof.
  intros Hl. unfold App.analyze.
  assert (Hall : App.all_uploaded files = false).
  { unfold App.all_uploaded. apply bool_decide_eq_false. intros Hall.
    destruct (Hall lane None Hl) as [x Hx]. discriminate. }
  by rewrite Hall.
Qed.

Lemma missing_upload_shows_message_witness :
  App.analyze list_vision (Counter.init 0.3) init
    (App.lane_files (Some (App.Decoded sample_image)) None
                    (Some (App.Decoded sample_image)) (Some App.Undecodable))
  = inr (App.ErrorMessage "Please upload images for all 4 lanes to proceed.").
Proof.
  apply (missing_upload_shows_message list_vision (Counter.init 0.3) init _
           "South"%string).
  reflexivity.
Defined.

(** * Properties of the binary64 embedding *)

(** ** Running a method body *)

Lemma run_ret {A : Type} (a : A) (s : F64.TrafficSignalOptimizer) :
  (mret a : F64.M A) s = (inr a, s).
Proof. reflexivity. Qed.

Lemma run_bind {A B : Type} (m : F64.M A) (k : A -> F64.M B)
    (s : F64.TrafficSignalOptimizer) :
  (m ≫= k) s
  = match m s with
    | (inl e, s') => (inl e, s')
    | (inr a, s') => k a s'
    end.
Proof. reflexivity. Qed.

Lemma run_bind_lift {A B : Type} (r : F64.exn + A) (k : A -> F64.M B)
    (s : F64.TrafficSignalOptimizer) :
  (F64.lift r ≫= k) s
  = match r with
    | inl e => (inl e, s)
    | inr a => k a s
    end.
Proof. by destruct r. Qed.

Lemma run_bind_getattr {A B : Type} (x : F64.TrafficSignalOptimizer -> A)
    (k : A -> F64.M B) (s : F64.TrafficSignalOptimizer) :
  (F64.getattr x ≫= k) s = k (x s) s.
Proof. reflexivity. Qed.

(** ** No method body writes to the object *)

Lemma preserves_ret {A : Type} (a : A) : F64.preserves (mret a : F64.M A).
Proof. by intros s. Qed.

Lemma preserves_lift {A : Type} (r : F64.exn + A) : F64.preserves (F64.lift r).
Proof. by intros s. Qed.

Lemma preserves_getattr {A : Type} (x : F64.TrafficSignalOptimizer -> A) :
  F64.preserves (F64.getattr x).
Proof. by intros s. Qed.

Lemma preserves_bind {A B : Type} (m : F64.M A) (k : A -> F64.M B) :
  F64.preserves m -> (forall a, F64.preserves (k a)) -> F64.preserves (m ≫= k).
Proof.
  intros Hm Hk s. rewrite run_bind. specialize (Hm s).
  destruct (m s) as [[e|a] s']; cbn in Hm; subst s'; [done|apply Hk].
Qed.

Lemma preserves_for_each {S B : Type} (body : S -> B -> F64.M S) (l : list B) :
  (forall a x, F64.preserves (body a x)) ->
  forall a, F64.preserves (F64.for_each body a l).
Proof.
  intros Hbody. induction l as [|x l IH]; intros a; cbn [F64.for_each].
  - apply preserves_ret.
  - apply preserves_bind; [apply Hbody|apply IH].
Qed.

Ltac preserving :=
  repeat first
    [ apply preserves_ret
    | apply preserves_lift
    | apply preserves_getattr
    | apply preserves_bind
    | intros ? ].

Lemma calculate_traffic_density_preserves (counts : F64.dict Z) :
  F64.preserves (F64.calculate_traffic_density counts).
Proof.
  apply preserves_for_each. intros density [vehicle_type count].
  unfold F64.density_body. preserving.
Qed.

Lemma flow_ratio_body_preserves (acc : F64.dict F64.LaneData * F64.float)
    (x : string * F64.dict Z) :
  F64.preserves (F64.flow_ratio_body acc x).
Proof.
  destruct acc as [lane_data Y], x as [lane counts].
  apply preserves_bind; [apply calculate_traffic_density_preserves|].
  preserving.
Qed.

Lemma flow_ratio_loop_preserves (lane_counts : F64.dict (F64.dict Z)) :
  F64.preserves (F64.flow_ratio_loop lane_counts).
Proof. apply preserves_for_each, flow_ratio_body_preserves. Qed.

Lemma optimal_cycle_preserves (L : Z) (Y_clamped : F64.float) :
  F64.preserves (F64.optimal_cycle L Y_clamped).
Proof.
  unfold F64.optimal_cycle.
  destruct (F64.flt (S754_zero false) Y_clamped); preserving.
Qed.

Lemma cycle_stage_preserves (Y : F64.float) : F64.preserves (F64.cycle_stage Y).
Proof.
  unfold F64.cycle_stage. apply preserves_bind; [apply preserves_getattr|].
  intros lost. apply preserves_bind; [apply optimal_cycle_preserves|].
  preserving.
Qed.

Lemma raw_green_preserves (Y : F64.float) (teg : Z) (y : F64.float) :
  F64.preserves (F64.raw_green Y teg y).
Proof.
  unfold F64.raw_green. destruct (F64.flt (S754_zero false) Y); preserving.
Qed.

Lemma green_loop_preserves (lane_data : F64.dict F64.LaneData) (Y : F64.float)
    (ct teg : Z) (lane_counts : F64.dict (F64.dict Z)) :
  F64.preserves (F64.green_loop lane_data Y ct teg lane_counts).
Proof.
  apply preserves_for_each. intros [lanes sum] [lane counts].
  apply preserves_bind; [apply preserves_lift|]. intros d.
  apply preserves_bind; [apply raw_green_preserves|].
  preserving.
Qed.

Lemma optimize_signals_preserves (lane_counts : F64.dict (F64.dict Z)) :
  F64.preserves (F64.optimize_signals lane_counts).
Proof.
  unfold F64.optimize_signals.
  apply preserves_bind; [apply flow_ratio_loop_preserves|]. intros [lane_data Y].
  apply preserves_bind; [apply cycle_stage_preserves|]. intros [L ct].
  apply preserves_bind; [apply green_loop_preserves|]. intros [lanes sum].
  apply preserves_ret.
Qed.

Lemma preserves_run {A : Type} (m : F64.M A) (s : F64.TrafficSignalOptimizer) :
  F64.preserves m -> m s = (F64.outcome m s, s).
Proof.
  intros Hm. specialize (Hm s). unfold F64.outcome.
  destruct (m s) as [out s']. cbn in *. by subst.
Qed.

(** C7.  A call of [optimize_signals] reads the attributes of the
    optimizer and writes none: whatever the configuration and the lane
    counts, and whether the call returns or raises, the object after the
    call is the object before it, so a second call with the same lane
    counts starts from the same configuration and has the same outcome,
    the same result or the same exception, bit for bit. *)
Theorem successive_calls_agree
    (self : F64.TrafficSignalOptimizer) (lane_counts : F64.dict (F64.dict Z)) :
  let '(out1, self1) := F64.optimize_signals lane_counts self in
  let '(out2, self2) := F64.optimize_signals lane_counts self1 in
  self1 = self /\ self2 = self /\ out1 = out2.
Proof.
  pose proof (optimize_signals_preserves lane_counts self) as H1.
  destruct (F64.optimize_signals lane_counts self) as [out1 self1] eqn:E1.
  cbn in H1. subst self1. rewrite E1. done.
Qed.

(** ** The saturation sum at or above 1 *)

Lemma nearest_int_1 :
  F64.nearest_int 1 = S754_finite false 4503599627370496 (-52).
Proof. by vm_compute. Qed.

Lemma literal_95_100 :
  F64.literal 95 100 = S754_finite false 8556839292003942 (-53).
Proof. by vm_compute. Qed.

Lemma oversaturated_sum (Y : F64.float) :
  F64.fle (F64.nearest_int 1) Y = true ->
  F64.min Y (F64.literal 95 100) = F64.literal 95 100
  /\ F64.flt (F64.literal 95 100) Y = true
  /\ F64.flt (S754_zero false) Y = true
  /\ F64.is_zero Y = false.
Proof.
  rewrite nearest_int_1. unfold F64.min. rewrite literal_95_100.
  unfold F64.fle, F64.flt, SFleb, SFltb.
  destruct Y as [s|s| |s m e]; cbn; try done.
  - by destruct s.
  - destruct s; [done|].
    destruct e as [|p|p]; try done.
    destruct (Pos.compare_spec 52 p) as [Heq|Hlt|Hgt];
      destruct (Pos.compare_spec 53 p) as [H53|H53|H53];
      cbn; try done; lia.
Qed.

(** ** Ordered dicts *)

Lemma lookup_set {V : Type} (d : F64.dict V) (k k' : string) (v : V) :
  F64.lookup (F64.set d k v) k'
  = if String.eqb k' k then Some v else F64.lookup d k'.
Proof.
  induction d as [|[k0 v0] d IH]; cbn; [done|].
  destruct (String.eqb_spec k k0) as [->|Hk]; cbn.
  - by destruct (String.eqb_spec k' k0).
  - rewrite IH.
    destruct (String.eqb_spec k' k0) as [->|Hk0]; [|done].
    by destruct (String.eqb_spec k0 k) as [->|_].
Qed.

Lemma lookup_set_is_Some {V : Type} (d : F64.dict V) (k k' : string) (v : V) :
  k' = k \/ is_Some (F64.lookup d k') -> is_Some (F64.lookup (F64.set d k v) k').
Proof.
  rewrite lookup_set. intros [->|H].
  - by rewrite String.eqb_refl.
  - by destruct (String.eqb k' k).
Qed.

(** Every lane of the request has an entry once the first loop is over. *)
Lemma flow_ratio_loop_keys (lane_counts : F64.dict (F64.dict Z)) :
  forall s acc lane_data Y s',
    F64.for_each F64.flow_ratio_body acc lane_counts s = (inr (lane_data, Y), s') ->
    forall lane,
      lane ∈ F64.keys lane_counts \/ is_Some (F64.lookup acc.1 lane) ->
      is_Some (F64.lookup lane_data lane).
Proof.
  induction lane_counts as [|[lane0 counts] l IH];
    intros s [ld0 Y0] lane_data Y s'; cbn [F64.for_each].
  - rewrite run_ret. intros [= <- _ _] lane [Hin|H]; [|done].
    by apply elem_of_nil in Hin.
  - rewrite run_bind.
    destruct (F64.flow_ratio_body (ld0, Y0) (lane0, counts) s)
      as [[e|[ld1 Y1]] s1] eqn:Hbody; [done|].
    intros Hrest lane Hlane.
    apply (IH _ _ _ _ _ Hrest). cbn [fst] in *.
    assert (Hld1 : exists d, ld1 = F64.set ld0 lane0 d).
    { unfold F64.flow_ratio_body in Hbody. rewrite run_bind in Hbody.
      destruct (F64.calculate_traffic_density counts s) as [[e|p] s2]; [done|].
      rewrite run_bind_getattr, run_bind_lift in Hbody.
      destruct (F64.truediv p (F64.saturation_flow s2)) as [e|q]; [done|].
      rewrite run_ret in Hbody. injection Hbody as <- _ _. by eexists. }
    destruct Hld1 as [d ->].
    unfold F64.keys in Hlane. rewrite fmap_cons, elem_of_cons in Hlane.
    cbn [fst] in Hlane.
    destruct Hlane as [[->|Hin]|Hsome].
    + right. apply lookup_set_is_Some. by left.
    + by left.
    + right. apply lookup_set_is_Some. by right.
Qed.

(** ** The stages of [optimize_signals] when [Y] is at least 1 *)

Lemma optimal_cycle_oversaturated :
  F64.optimal_cycle 16 (F64.literal 95 100) F64.new
  = (inr (F64.Float (S754_finite false 5101733952880635 (-43))), F64.new).
Proof. by vm_compute. Qed.

Lemma cycle_stage_oversaturated (Y : F64.float) :
  F64.fle (F64.nearest_int 1) Y = true ->
  F64.cycle_stage Y F64.new = (inr (16, 150), F64.new).
Proof.
  intros HY. destruct (oversaturated_sum Y HY) as (Hmin & _).
  unfold F64.cycle_stage. rewrite run_bind_getattr.
  change (F64.lost_time_per_phase F64.new * 4) with 16.
  cbv zeta. rewrite Hmin, run_bind, optimal_cycle_oversaturated.
  by vm_compute.
Qed.

Lemma raw_green_oversaturated (Y y : F64.float) (s : F64.TrafficSignalOptimizer) :
  F64.fle (F64.nearest_int 1) Y = true ->
  F64.raw_green Y 134 y s = (inr (F64.share Y y), s).
Proof.
  intros HY. destruct (oversaturated_sum Y HY) as (_ & _ & Hpos & Hnz).
  unfold F64.raw_green. rewrite Hpos, run_bind_lift.
  unfold F64.truediv. rewrite Hnz.
  change (F64.float_of_int 134) with (inr (F64.nearest_int 134) : F64.exn + _).
  by rewrite run_bind_lift, run_ret.
Qed.

Lemma round_outcome (x : F64.float) :
  (F64.is_finite x = true /\ exists n, F64.round x = inr n)
  \/ (F64.is_finite x = false
      /\ (F64.round x = inl F64.ValueError \/ F64.round x = inl F64.OverflowError)).
Proof.
  destruct x; cbn; eauto.
Qed.

Lemma green_body_oversaturated (lane_data : F64.dict F64.LaneData) (Y : F64.float)
    (acc : F64.dict F64.LaneTiming * Z) (lane : string) (counts : F64.dict Z) :
  F64.fle (F64.nearest_int 1) Y = true ->
  F64.green_body lane_data Y 150 134 acc (lane, counts) F64.new
  = match F64.lookup lane_data lane with
    | None => (inl (F64.KeyError lane), F64.new)
    | Some d =>
        match F64.round (F64.share Y (F64.y d)) with
        | inl e => (inl e, F64.new)
        | inr rounded =>
            (inr (F64.set acc.1 lane
                    {| F64.green_time := Z.max 10 rounded;
                       F64.red_time := 150 - Z.max 10 rounded - 4;
                       F64.yellow_time := 4;
                       F64.density_score := F64.pcu d;
                       F64.flow_ratio := F64.round_3 (F64.y d) |},
                  acc.2 + Z.max 10 rounded), F64.new)
        end
    end.
Proof.
  intros HY. destruct acc as [lanes sum]. unfold F64.green_body.
  rewrite run_bind_lift. unfold F64.getitem.
  destruct (F64.lookup lane_data lane) as [d|]; [|done].
  cbv zeta. rewrite run_bind, raw_green_oversaturated by done.
  rewrite run_bind_lift.
  destruct (F64.round (F64.share Y (F64.y d))) as [e|rounded]; [done|].
  rewrite !run_bind_getattr, run_bind_lift, run_ret. reflexivity.
Qed.

Lemma green_loop_returns (lane_data : F64.dict F64.LaneData) (Y : F64.float)
    (lane_counts : F64.dict (F64.dict Z)) :
  F64.fle (F64.nearest_int 1) Y = true ->
  Forall (F64.finite_share lane_data Y) (F64.keys lane_counts) ->
  forall acc, exists res,
    F64.for_each (F64.green_body lane_data Y 150 134) acc lane_counts F64.new
    = (inr res, F64.new).
Proof.
  intros HY. induction lane_counts as [|[lane counts] l IH];
    intros Hall acc; cbn [F64.for_each].
  - by eexists.
  - unfold F64.keys in Hall. rewrite fmap_cons in Hall. cbn [fst] in Hall.
    apply Forall_cons in Hall as [(d & Hd & Hfin) Hall].
    rewrite run_bind, green_body_oversaturated, Hd by done.
    destruct (round_outcome (F64.share Y (F64.y d)))
      as [[_ [n ->]]|[Hinf _]]; [|congruence].
    apply IH, Hall.
Qed.

Lemma green_loop_returned (lane_data : F64.dict F64.LaneData) (Y : F64.float)
    (lane_counts : F64.dict (F64.dict Z)) :
  F64.fle (F64.nearest_int 1) Y = true ->
  forall acc res s',
    F64.for_each (F64.green_body lane_data Y 150 134) acc lane_counts F64.new
    = (inr res, s') ->
    Forall (F64.finite_share lane_data Y) (F64.keys lane_counts).
Proof.
  intros HY. induction lane_counts as [|[lane counts] l IH];
    intros acc res s'; cbn [F64.for_each]; [by constructor|].
  rewrite run_bind, green_body_oversaturated by done.
  destruct (F64.lookup lane_data lane) as [d|] eqn:Hd; [|done].
  destruct (round_outcome (F64.share Y (F64.y d)))
    as [[Hfin [n ->]]|[_ [-> | ->]]]; [|done..].
  intros Hrest. unfold F64.keys. rewrite fmap_cons. cbn [fst].
  apply Forall_cons. split.
  - by exists d.
  - by eapply IH.
Qed.

Lemma green_loop_raised (lane_data : F64.dict F64.LaneData) (Y : F64.float)
    (lane_counts : F64.dict (F64.dict Z)) :
  F64.fle (F64.nearest_int 1) Y = true ->
  (forall lane, lane ∈ F64.keys lane_counts -> is_Some (F64.lookup lane_data lane)) ->
  forall acc e s',
    F64.for_each (F64.green_body lane_data Y 150 134) acc lane_counts F64.new
    = (inl e, s') ->
    e = F64.ValueError \/ e = F64.OverflowError.
Proof.
  intros HY. induction lane_counts as [|[lane counts] l IH];
    intros Hkeys acc e s'; cbn [F64.for_each]; [done|].
  rewrite run_bind, green_body_oversaturated by done.
  destruct (Hkeys lane) as [d Hd]; [unfold F64.keys; rewrite fmap_cons; by left|].
  rewrite Hd.
  destruct (round_outcome (F64.share Y (F64.y d)))
    as [[_ [n ->]]|[_ [-> | ->]]].
  - apply IH. intros lane' Hin. apply Hkeys.
    unfold F64.keys. rewrite fmap_cons. by right.
  - intros [= <- _]. by left.
  - intros [= <- _]. by right.
Qed.

Lemma optimize_signals_oversaturated (lane_counts : F64.dict (F64.dict Z))
    (lane_data : F64.dict F64.LaneData) (Y : F64.float) :
  F64.outcome (F64.flow_ratio_loop lane_counts) F64.new = inr (lane_data, Y) ->
  F64.fle (F64.nearest_int 1) Y = true ->
  F64.outcome (F64.optimize_signals lane_counts) F64.new
  = match F64.outcome (F64.green_loop lane_data Y 150 134 lane_counts) F64.new with
    | inl e => inl e
    | inr (lanes, allocated_green_sum) =>
        inr {| F64.cycle_time := 150;
               F64.lanes := lanes;
               F64.saturation_degree := Y;
               F64.actual_cycle_time := allocated_green_sum + 16 |}
    end.
Proof.
  intros Hloop HY. unfold F64.outcome at 1. unfold F64.optimize_signals.
  rewrite run_bind, (preserves_run _ _ (flow_ratio_loop_preserves lane_counts)), Hloop.
  rewrite run_bind, cycle_stage_oversaturated by done.
  change (150 - 16) with 134.
  rewrite run_bind, (preserves_run _ _ (green_loop_preserves lane_data Y 150 134 lane_counts)).
  by destruct (F64.outcome (F64.green_loop lane_data Y 150 134 lane_counts) F64.new)
    as [e|[lanes sum]].
Qed.

(** C3, as stated, fails on the call as a whole: for one lane of
    [10 ^ 308] buses the first loop returns, the saturation sum it computes
    is infinite and so at least 1, and the call raises [ValueError], at the
    rounding of the green share of the lane, which is NaN. *)
Lemma oversaturated_request_raises :
  exists lane_data Y,
    F64.outcome (F64.flow_ratio_loop F64.huge_bus_lane) F64.new = inr (lane_data, Y)
    /\ Y = S754_infinity false
    /\ F64.fle (F64.nearest_int 1) Y = true
    /\ F64.share Y Y = S754_nan
    /\ F64.outcome (F64.optimize_signals F64.huge_bus_lane) F64.new
       = inl F64.ValueError.
Proof.
  eexists _, _. split; [by vm_compute|].
  split; [reflexivity|]. split; [reflexivity|]. split; by vm_compute.
Qed.

(** C3, amended.  For every request whose computed saturation sum [Y] is
    at least 1, under the default configuration: the cycle computation
    raises nothing and gives no infinite or NaN cycle, it works from
    [min(Y, 0.95) = 0.95], its optimal cycle is a finite number and the
    cycle time is [max_cycle_time]; the call as a whole returns a result
    exactly when the green share of every lane is a finite number; a
    result it returns has [max_cycle_time] as cycle time and the unclamped
    [Y], above the clamp, as saturation degree; and when it does not
    return, what it raises is [ValueError] or [OverflowError], from the
    rounding of a green share that is NaN or infinite. *)
Theorem oversaturated_cycle_is_max
    (lane_counts : F64.dict (F64.dict Z))
    (lane_data : F64.dict F64.LaneData) (Y : F64.float) :
  F64.outcome (F64.flow_ratio_loop lane_counts) F64.new = inr (lane_data, Y) ->
  F64.fle (F64.nearest_int 1) Y = true ->
  F64.min Y (F64.literal 95 100) = F64.literal 95 100
  /\ (exists oc,
        F64.outcome (F64.optimal_cycle 16 (F64.min Y (F64.literal 95 100))) F64.new
        = inr (F64.Float oc)
        /\ F64.is_finite oc = true)
  /\ F64.outcome (F64.cycle_stage Y) F64.new = inr (16, F64.max_cycle_time F64.new)
  /\ ((exists r, F64.outcome (F64.optimize_signals lane_counts) F64.new = inr r)
      <-> Forall (F64.finite_share lane_data Y) (F64.keys lane_counts))
  /\ (forall r,
        F64.outcome (F64.optimize_signals lane_counts) F64.new = inr r ->
        F64.cycle_time r = F64.max_cycle_time F64.new
        /\ F64.saturation_degree r = Y
        /\ F64.flt (F64.min Y (F64.literal 95 100)) (F64.saturation_degree r) = true)
  /\ (forall e,
        F64.outcome (F64.optimize_signals lane_counts) F64.new = inl e ->
        e = F64.ValueError \/ e = F64.OverflowError).
Proof.
  intros Hloop HY.
  destruct (oversaturated_sum Y HY) as (Hmin & Hlt & _).
  pose proof (optimize_signals_oversaturated _ _ _ Hloop HY) as Hopt.
  pose proof (preserves_run _ F64.new
                (green_loop_preserves lane_data Y 150 134 lane_counts)) as Hrun.
  unfold F64.green_loop in Hrun, Hopt.
  split; [exact Hmin|].
  split.
  { rewrite Hmin. unfold F64.outcome. rewrite optimal_cycle_oversaturated.
    by eexists. }
  split.
  { unfold F64.outcome. by rewrite cycle_stage_oversaturated. }
  split; [split|split].
  - intros [r Hr]. rewrite Hopt in Hr.
    destruct (F64.outcome _ F64.new) as [e|[lanes sum]] eqn:Hg in Hr; [done|].
    rewrite Hg in Hrun. by eapply green_loop_returned.
  - intros Hall.
    destruct (green_loop_returns lane_data Y lane_counts HY Hall ([], 0))
      as [[lanes sum] Hres].
    rewrite Hopt. unfold F64.outcome. rewrite Hres. by eexists.
  - intros r Hr. rewrite Hopt in Hr.
    destruct (F64.outcome _ F64.new) as [e|[lanes sum]] in Hr; [done|].
    injection Hr as <-. cbn [F64.cycle_time F64.saturation_degree].
    rewrite Hmin. by repeat split.
  - intros e He. rewrite Hopt in He.
    destruct (F64.outcome _ F64.new) as [e'|[lanes sum]] eqn:Hg in He; [|done].
    injection He as ->. rewrite Hg in Hrun.
    eapply green_loop_raised; [exact HY| |exact Hrun].
    intros lane Hin.
    unfold F64.outcome, F64.flow_ratio_loop in Hloop.
    destruct (F64.for_each F64.flow_ratio_body ([], S754_zero false)
                lane_counts F64.new) as [out s'] eqn:Hfl.
    cbn in Hloop. subst out.
    eapply flow_ratio_loop_keys; [exact Hfl|by left].
Qed.

Lemma oversaturated_cycle_is_max_witness :
  exists r,
    F64.outcome (F64.optimize_signals F64.cars_7_7_7_9) F64.new = inr r
    /\ F64.cycle_time r = 150
    /\ F64.saturation_degree r = F64.nearest_int 1.
Proof.
  destruct (oversaturated_cycle_is_max F64.cars_7_7_7_9
              [("North"%string, {| F64.pcu := F64.nearest_int 7;
                                   F64.y := S754_finite false 8406719304424926 (-55) |});
               ("South"%string, {| F64.pcu := F64.nearest_int 7;
                                   F64.y := S754_finite false 8406719304424926 (-55) |});
               ("East"%string, {| F64.pcu := F64.nearest_int 7;
                                  F64.y := S754_finite false 8406719304424926 (-55) |});
               ("West"%string, {| F64.pcu := F64.nearest_int 9;
                                  F64.y := S754_finite false 5404319552844595 (-54) |})]
              (F64.nearest_int 1))
    as (_ & _ & _ & Hiff & Hret & _).
  - vm_compute. reflexivity.
  - vm_compute. reflexivity.
  - destruct (proj2 Hiff) as [r Hr].
    + repeat constructor; eexists; (split; [vm_compute; reflexivity|]);
        vm_compute; reflexivity.
    + exists r. split; [exact Hr|].
      destruct (Hret r Hr) as (Hc & Hs & _). by split.
Defined.

(** ** Requests without validation *)

(** The lane with a negative count and the request without lanes, on
    binary64: both are answered, with the plans that the exact embedding
    gives them. *)
Lemma invalid_requests_are_answered_binary64 :
  (exists r,
     F64.outcome (F64.optimize_signals F64.negative_lane) F64.new = inr r
     /\ F64.cycle_time r = 60 /\ F64.actual_cycle_time r = 27
     /\ F64.green_time <$> F64.lookup (F64.lanes r) "North" = Some 11)
  /\ (exists r,
        F64.outcome (F64.optimize_signals []) F64.new = inr r
        /\ F64.cycle_time r = 60 /\ F64.actual_cycle_time r = 16
        /\ F64.lanes r = []).
Proof.
  split; eexists; (split; [by vm_compute|]); by vm_compute.
Qed.

(** ** A saturation flow of zero *)

Lemma density_returns (s : F64.TrafficSignalOptimizer) (counts : F64.dict Z) :
  F64.convertible counts ->
  forall density, exists d,
    F64.for_each F64.density_body density counts s = (inr d, s).
Proof.
  induction counts as [|[vehicle_type count] l IH]; intros Hall density;
    cbn [F64.for_each].
  - by eexists.
  - apply Forall_cons in Hall as [Hfin Hall]. cbn [snd] in Hfin.
    rewrite run_bind. unfold F64.density_body at 1.
    rewrite run_bind_getattr. cbv zeta. rewrite run_bind_lift.
    unfold F64.float_of_int. rewrite Hfin, run_ret.
    by apply IH.
Qed.

(** X1.  On an optimizer whose saturation flow is zero, a request whose
    first lane has counts that all fit a float raises [ZeroDivisionError],
    at the flow ratio of that lane, whatever the weights, the counts and
    the other lanes are. *)
Theorem zero_saturation_flow_raises
    (self : F64.TrafficSignalOptimizer) (lane : string) (counts : F64.dict Z)
    (rest : F64.dict (F64.dict Z)) :
  F64.is_zero (F64.saturation_flow self) = true ->
  F64.convertible counts ->
  F64.outcome (F64.optimize_signals ((lane, counts) :: rest)) self
  = inl F64.ZeroDivisionError.
Proof.
  intros Hz Hc.
  destruct (density_returns self counts Hc (S754_zero false)) as [d Hd].
  unfold F64.outcome, F64.optimize_signals, F64.flow_ratio_loop.
  cbn [F64.for_each]. rewrite !run_bind.
  unfold F64.flow_ratio_body at 1. rewrite run_bind.
  unfold F64.calculate_traffic_density. rewrite Hd.
  rewrite run_bind_getattr, run_bind_lift.
  unfold F64.truediv. by rewrite Hz.
Qed.

Lemma zero_saturation_flow_raises_witness :
  F64.outcome (F64.optimize_signals F64.cars_7_7_7_9) F64.zero_flow
  = inl F64.ZeroDivisionError.
Proof.
  apply (zero_saturation_flow_raises F64.zero_flow "North"%string
           [("car"%string, 7)]).
  - reflexivity.
  - repeat constructor.
Defined.
